(** * ofxStructureCore: frame hand-off, drain and depth unprojection

    A shallow embedding of [src/ofxStructureCore.cpp].  The object's member
    variables become the fields of a record [State]; every member function
    becomes a function on [State] that returns the new state (and the
    function's result, when it has one).  The capture session of the sensor
    SDK is an interface whose answers the core cannot predict; it is a type
    class here.  Logging is not modelled: it changes no member variable.

    Each callback and each API call is modelled as one atomic step, that is,
    the mutex-protected sections are taken as a whole; interleavings of the
    capture thread with the update thread are outside this development. *)

From Stdlib Require Import ZArith Lia Bool String.
From Stdlib Require Import Floats.SpecFloat.
From stdpp Require Import base tactics option list list_numbers.

Local Open Scope Z_scope.

(** ** Single-precision floats

    [float] in the source is IEEE-754 binary32: 24 bits of mantissa,
    infinities at exponent 128.  The operations are those of the standard
    library's executable specification of floating-point arithmetic, with
    round-to-nearest-even. *)
Module F32.

Definition prec : Z := 24.
Definition emax : Z := 128.

Definition float32 : Type := spec_float.

Definition zero : float32 := S754_zero false.
Definition one : float32 := Eval cbv in SFone prec emax.

(** Conversion of an [int] to [float], as in [c - _cx]. *)
Definition of_int (z : Z) : float32 := binary_normalize prec emax z 0 false.

Definition sub (a b : float32) : float32 := SFsub prec emax a b.
Definition mul (a b : float32) : float32 := SFmul prec emax a b.
Definition div (a b : float32) : float32 := SFdiv prec emax a b.

(** [a == b] on floats: false on NaN, true on zeros of either sign. *)
Definition eqb (a b : float32) : bool := SFeqb a b.

Definition is_zero (a : float32) : bool :=
  match a with S754_zero _ => true | _ => false end.

(** A number that is neither NaN nor infinite. *)
Definition is_finite (a : float32) : bool :=
  match a with S754_zero _ | S754_finite _ _ _ => true | _ => false end.

(** A usable divisor: not NaN and not zero (it may be infinite). *)
Definition is_divisor (a : float32) : bool :=
  match a with S754_finite _ _ _ | S754_infinity _ => true | _ => false end.

End F32.

Abbreviation float32 := F32.float32.

(** ** Machine integers

    [int] is 32 bits wide and signed, [size_t] 64 bits wide and unsigned.
    The source multiplies and adds [int]s; the wrap-around of the two's
    complement representation is written out. *)
Module Int.

Definition max_int : Z := 2147483647.

Definition wrap (z : Z) : Z := (z + 2147483648) mod 4294967296 - 2147483648.

Definition mul (a b : Z) : Z := wrap (a * b).
Definition add (a b : Z) : Z := wrap (a + b).

(** Conversion of an [int] to [size_t]. *)
Definition to_size_t (z : Z) : Z := z mod 18446744073709551616.

End Int.

(** ** Vectors and matrices of glm *)

Record vec3 : Type := mkVec3 { v3x : float32; v3y : float32; v3z : float32 }.

Record vec4 : Type := mkVec4 { v4x : float32; v4y : float32; v4z : float32; v4w : float32 }.

(** [glm::mat4] holds four columns. *)
Record mat4 : Type := mkMat4 { col0 : vec4; col1 : vec4; col2 : vec4; col3 : vec4 }.

(** [glm::mat4(1)]: ones on the diagonal, zeros elsewhere. *)
Definition mat4_identity : mat4 :=
  mkMat4 (mkVec4 F32.one F32.zero F32.zero F32.zero)
         (mkVec4 F32.zero F32.one F32.zero F32.zero)
         (mkVec4 F32.zero F32.zero F32.one F32.zero)
         (mkVec4 F32.zero F32.zero F32.zero F32.one).

(** [==] of glm compares component by component with the [==] of floats.
    The theorems below use the outcome of the comparison of two matrices
    only, not the way it is computed. *)
Definition vec4_eqb (a b : vec4) : bool :=
  F32.eqb (v4x a) (v4x b) && F32.eqb (v4y a) (v4y b)
  && F32.eqb (v4z a) (v4z b) && F32.eqb (v4w a) (v4w b).

Definition mat4_eqb (a b : mat4) : bool :=
  vec4_eqb (col0 a) (col0 b) && vec4_eqb (col1 a) (col1 b)
  && vec4_eqb (col2 a) (col2 b) && vec4_eqb (col3 a) (col3 b).

Definition vec3_eqb (a b : vec3) : bool :=
  F32.eqb (v3x a) (v3x b) && F32.eqb (v3y a) (v3y b) && F32.eqb (v3z a) (v3z b).

(** ** Types of the sensor SDK

    The SDK's headers are not part of the repository.  The records below
    carry the members that the source reads. *)

(** [ST::Matrix4]: sixteen floats [m[0] .. m[15]]. *)
Record Matrix4 : Type := mkMatrix4 {
  m0 : float32; m1 : float32; m2 : float32; m3 : float32;
  m4 : float32; m5 : float32; m6 : float32; m7 : float32;
  m8 : float32; m9 : float32; m10 : float32; m11 : float32;
  m12 : float32; m13 : float32; m14 : float32; m15 : float32 }.

(** [glm::make_mat4]: sixteen consecutive floats, column by column. *)
Definition make_mat4 (a : Matrix4) : mat4 :=
  mkMat4 (mkVec4 (m0 a) (m1 a) (m2 a) (m3 a))
         (mkVec4 (m4 a) (m5 a) (m6 a) (m7 a))
         (mkVec4 (m8 a) (m9 a) (m10 a) (m11 a))
         (mkVec4 (m12 a) (m13 a) (m14 a) (m15 a)).

(** [ST::Intrinsics]: focal lengths and principal point, in pixels. *)
Record Intrinsics : Type := mkIntrinsics {
  fx : float32; fy : float32; cx : float32; cy : float32 }.

Record DepthFrame : Type := mkDepthFrame {
  depth_isValid : bool;
  depth_width : Z;
  depth_height : Z;
  depthInMillimeters : list float32;
  glProjectionMatrix : Matrix4;
  intrinsics : Intrinsics }.

(** Infrared samples are 16 bits wide, colour samples 8 bits; both are kept
    as integers. *)
Record InfraredFrame : Type := mkInfraredFrame {
  ir_isValid : bool;
  ir_width : Z;
  ir_height : Z;
  ir_data : list Z }.

Record ColorFrame : Type := mkColorFrame {
  visible_isValid : bool;
  visible_width : Z;
  visible_height : Z;
  rgbData : list Z }.

Record AccelerometerEvent : Type := mkAccelerometerEvent { acceleration : vec3 }.

Record GyroscopeEvent : Type := mkGyroscopeEvent { rotationRate : vec3 }.

(** [Frame::Type]; [T_Other] stands for every other enumerator. *)
Inductive FrameType : Type :=
  | T_DepthFrame
  | T_VisibleFrame
  | T_InfraredFrame
  | T_SynchronizedFrames
  | T_AccelerometerEvent
  | T_GyroscopeEvent
  | T_Other (tag : Z).

Record Frame : Type := mkFrame {
  type : FrameType;
  depthFrame : DepthFrame;
  visibleFrame : ColorFrame;
  infraredFrame : InfraredFrame;
  accelerometerEvent : AccelerometerEvent;
  gyroscopeEvent : GyroscopeEvent }.

(** [ST::CaptureSessionEventId]. *)
Inductive EventType : Type :=
  | Booting
  | Ready
  | Connected
  | Streaming
  | Disconnected
  | Error
  | OtherEvent (tag : Z).

(** ** Containers of openFrameworks *)

Record ofPixels (A : Type) : Type := mkPixels {
  pix_data : list A;
  pix_width : Z;
  pix_height : Z;
  pix_channels : Z }.
Arguments mkPixels {A} _ _ _ _.
Arguments pix_data {A} _.
Arguments pix_width {A} _.
Arguments pix_height {A} _.
Arguments pix_channels {A} _.

(** [setFromPixels( buf, w, h, channels )] copies [w*h*channels] samples. *)
Definition setFromPixels {A} (buf : list A) (w h channels : Z) : ofPixels A :=
  mkPixels (take (Z.to_nat (w * h * channels)) buf) w h channels.

(** An image owns its pixels; [update()] refreshes the cached size and
    uploads the pixels to the texture.  [getWidth()] and [getHeight()]
    report the cached size; sizes are kept as integers. *)
Record ofImage (A : Type) : Type := mkImage {
  img_pixels : ofPixels A;
  img_width : Z;
  img_height : Z;
  img_texture : list A }.
Arguments mkImage {A} _ _ _ _.
Arguments img_pixels {A} _.
Arguments img_width {A} _.
Arguments img_height {A} _.
Arguments img_texture {A} _.

Definition getPixels {A} (img : ofImage A) : ofPixels A := img_pixels img.
Definition getWidth {A} (img : ofImage A) : Z := img_width img.
Definition getHeight {A} (img : ofImage A) : Z := img_height img.

Definition img_setPixels {A} (p : ofPixels A) (img : ofImage A) : ofImage A :=
  mkImage p (img_width img) (img_height img) (img_texture img).

Definition img_update {A} (img : ofImage A) : ofImage A :=
  mkImage (img_pixels img) (pix_width (img_pixels img))
          (pix_height (img_pixels img)) (pix_data (img_pixels img)).

Inductive GLusage : Type := GL_STREAM_DRAW | GL_STATIC_DRAW | GL_DYNAMIC_DRAW.

Record ofVbo : Type := mkVbo { vbo_vertices : list vec3; vbo_usage : GLusage }.

(** [setVertexData( ptr, total, usage )] uploads [total] vertices. *)
Definition setVertexData (verts : list vec3) (total : Z) (usage : GLusage) : ofVbo :=
  mkVbo (take (Z.to_nat total) verts) usage.

Record PointCloud : Type := mkPointCloud { vertices : list vec3 }.

(** ** Array accesses

    Indices are [int]s.  An access outside the array is undefined in the
    source; here a read outside yields zero and a write outside does
    nothing.  The theorems below only speak of accesses inside. *)
Definition read_at (l : list float32) (i : Z) : float32 :=
  if Z.ltb i 0 then F32.zero else default F32.zero (l !! Z.to_nat i).

Definition write_at (i : Z) (v : vec3) (l : list vec3) : list vec3 :=
  if Z.ltb i 0 then l else <[Z.to_nat i := v]> l.

(** ** The unprojection of one pixel (lines 230-232) *)
Definition unproject (K : Intrinsics) (r c : Z) (depth : float32) : vec3 :=
  mkVec3 (F32.div (F32.mul depth (F32.sub (F32.of_int c) (cx K))) (fx K))
         (F32.div (F32.mul depth (F32.sub (F32.of_int r) (cy K))) (fy K))
         depth.

(** The body of the inner loop, lines 226-232. *)
Definition pixel_body (cols : Z) (depths : list float32) (K : Intrinsics)
    (r : Z) (verts : list vec3) (c : Z) : list vec3 :=
  let i := Int.add (Int.mul r cols) c in
  let depth := read_at depths i in
  write_at i (unproject K r c depth) verts.

(** The inner loop, [for ( int c = 0; c < cols; c++ )]. *)
Definition row_loop (cols : Z) (depths : list float32) (K : Intrinsics)
    (verts : list vec3) (r : Z) : list vec3 :=
  fold_left (pixel_body cols depths K r) (seqZ 0 cols) verts.

(** The outer loop, [for ( int r = 0; r < rows; r++ )]. *)
Definition rows_loop (rows cols : Z) (depths : list float32) (K : Intrinsics)
    (verts : list vec3) : list vec3 :=
  fold_left (row_loop cols depths K) (seqZ 0 rows) verts.

(** [vertices.resize( nVerts )]: keeps the leading vertices and pads with
    default-constructed ones. *)
Definition vec3_default : vec3 := mkVec3 F32.zero F32.zero F32.zero.

Definition vertices_resize (nVerts : Z) (verts : list vec3) : list vec3 :=
  resize (Z.to_nat nVerts) vec3_default verts.

(** ** The capture session

    [ST::CaptureSession] belongs to the SDK.  The core calls three of its
    member functions; what they answer depends on the sensor. *)
Class CaptureSession (Settings Session : Type) : Type := {
  startMonitoring : Settings -> Session -> bool * Session;
  startStreaming : Session -> bool * Session;
  stopStreaming : Session -> Session }.

(** ** The object and its member functions *)
Section Core.

Context {Settings Session : Type} `{CaptureSession Settings Session}.

(** The member variables of [ofxStructureCore]. *)
Record State : Type := mkState {
  _captureSession : Session;
  _isStreaming : bool;
  _streamOnReady : bool;
  _isFrameNew : bool;
  _depthDirty : bool;
  _irDirty : bool;
  _visibleDirty : bool;
  _depthFrame : DepthFrame;
  _irFrame : InfraredFrame;
  _visibleFrame : ColorFrame;
  _accelerometerEvent : AccelerometerEvent;
  _gyroscopeEvent : GyroscopeEvent;
  _depthProjectionMatrix : mat4;
  _depthIntrinsics : Intrinsics;
  depthImg : ofImage float32;
  irImg : ofImage Z;
  visibleImg : ofImage Z;
  pointcloud : PointCloud;
  vbo : ofVbo }.

(** Assignments to one member variable. *)
Definition set_captureSession (v : Session) (s : State) : State :=
  mkState v (_isStreaming s) (_streamOnReady s) (_isFrameNew s)
    (_depthDirty s) (_irDirty s) (_visibleDirty s) (_depthFrame s)
    (_irFrame s) (_visibleFrame s) (_accelerometerEvent s) (_gyroscopeEvent s)
    (_depthProjectionMatrix s) (_depthIntrinsics s) (depthImg s) (irImg s)
    (visibleImg s) (pointcloud s) (vbo s).

Definition set_isStreaming (v : bool) (s : State) : State :=
  mkState (_captureSession s) v (_streamOnReady s) (_isFrameNew s)
    (_depthDirty s) (_irDirty s) (_visibleDirty s) (_depthFrame s)
    (_irFrame s) (_visibleFrame s) (_accelerometerEvent s) (_gyroscopeEvent s)
    (_depthProjectionMatrix s) (_depthIntrinsics s) (depthImg s) (irImg s)
    (visibleImg s) (pointcloud s) (vbo s).

Definition set_streamOnReady (v : bool) (s : State) : State :=
  mkState (_captureSession s) (_isStreaming s) v (_isFrameNew s)
    (_depthDirty s) (_irDirty s) (_visibleDirty s) (_depthFrame s)
    (_irFrame s) (_visibleFrame s) (_accelerometerEvent s) (_gyroscopeEvent s)
    (_depthProjectionMatrix s) (_depthIntrinsics s) (depthImg s) (irImg s)
    (visibleImg s) (pointcloud s) (vbo s).

Definition set_isFrameNew (v : bool) (s : State) : State :=
  mkState (_captureSession s) (_isStreaming s) (_streamOnReady s) v
    (_depthDirty s) (_irDirty s) (_visibleDirty s) (_depthFrame s)
    (_irFrame s) (_visibleFrame s) (_accelerometerEvent s) (_gyroscopeEvent s)
    (_depthProjectionMatrix s) (_depthIntrinsics s) (depthImg s) (irImg s)
    (visibleImg s) (pointcloud s) (vbo s).

Definition set_depthDirty (v : bool) (s : State) : State :=
  mkState (_captureSession s) (_isStreaming s) (_streamOnReady s)
    (_isFrameNew s) v (_irDirty s) (_visibleDirty s) (_depthFrame s)
    (_irFrame s) (_visibleFrame s) (_accelerometerEvent s) (_gyroscopeEvent s)
    (_depthProjectionMatrix s) (_depthIntrinsics s) (depthImg s) (irImg s)
    (visibleImg s) (pointcloud s) (vbo s).

Definition set_irDirty (v : bool) (s : State) : State :=
  mkState (_captureSession s) (_isStreaming s) (_streamOnReady s)
    (_isFrameNew s) (_depthDirty s) v (_visibleDirty s) (_depthFrame s)
    (_irFrame s) (_visibleFrame s) (_accelerometerEvent s) (_gyroscopeEvent s)
    (_depthProjectionMatrix s) (_depthIntrinsics s) (depthImg s) (irImg s)
    (visibleImg s) (pointcloud s) (vbo s).

Definition set_visibleDirty (v : bool) (s : State) : State :=
  mkState (_captureSession s) (_isStreaming s) (_streamOnReady s)
    (_isFrameNew s) (_depthDirty s) (_irDirty s) v (_depthFrame s)
    (_irFrame s) (_visibleFrame s) (_accelerometerEvent s) (_gyroscopeEvent s)
    (_depthProjectionMatrix s) (_depthIntrinsics s) (depthImg s) (irImg s)
    (visibleImg s) (pointcloud s) (vbo s).

Definition set_depthFrame (v : DepthFrame) (s : State) : State :=
  mkState (_captureSession s) (_isStreaming s) (_streamOnReady s)
    (_isFrameNew s) (_depthDirty s) (_irDirty s) (_visibleDirty s) v
    (_irFrame s) (_visibleFrame s) (_accelerometerEvent s) (_gyroscopeEvent s)
    (_depthProjectionMatrix s) (_depthIntrinsics s) (depthImg s) (irImg s)
    (visibleImg s) (pointcloud s) (vbo s).

Definition set_irFrame (v : InfraredFrame) (s : State) : State :=
  mkState (_captureSession s) (_isStreaming s) (_streamOnReady s)
    (_isFrameNew s) (_depthDirty s) (_irDirty s) (_visibleDirty s)
    (_depthFrame s) v (_visibleFrame s) (_accelerometerEvent s)
    (_gyroscopeEvent s) (_depthProjectionMatrix s) (_depthIntrinsics s)
    (depthImg s) (irImg s) (visibleImg s) (pointcloud s) (vbo s).

Definition set_visibleFrame (v : ColorFrame) (s : State) : State :=
  mkState (_captureSession s) (_isStreaming s) (_streamOnReady s)
    (_isFrameNew s) (_depthDirty s) (_irDirty s) (_visibleDirty s)
    (_depthFrame s) (_irFrame s) v (_accelerometerEvent s) (_gyroscopeEvent s)
    (_depthProjectionMatrix s) (_depthIntrinsics s) (depthImg s) (irImg s)
    (visibleImg s) (pointcloud s) (vbo s).

Definition set_accelerometerEvent (v : AccelerometerEvent) (s : State) : State :=
  mkState (_captureSession s) (_isStreaming s) (_streamOnReady s)
    (_isFrameNew s) (_depthDirty s) (_irDirty s) (_visibleDirty s)
    (_depthFrame s) (_irFrame s) (_visibleFrame s) v (_gyroscopeEvent s)
    (_depthProjectionMatrix s) (_depthIntrinsics s) (depthImg s) (irImg s)
    (visibleImg s) (pointcloud s) (vbo s).

Definition set_gyroscopeEvent (v : GyroscopeEvent) (s : State) : State :=
  mkState (_captureSession s) (_isStreaming s) (_streamOnReady s)
    (_isFrameNew s) (_depthDirty s) (_irDirty s) (_visibleDirty s)
    (_depthFrame s) (_irFrame s) (_visibleFrame s) (_accelerometerEvent s) v
    (_depthProjectionMatrix s) (_depthIntrinsics s) (depthImg s) (irImg s)
    (visibleImg s) (pointcloud s) (vbo s).

Definition set_depthProjectionMatrix (v : mat4) (s : State) : State :=
  mkState (_captureSession s) (_isStreaming s) (_streamOnReady s)
    (_isFrameNew s) (_depthDirty s) (_irDirty s) (_visibleDirty s)
    (_depthFrame s) (_irFrame s) (_visibleFrame s) (_accelerometerEvent s)
    (_gyroscopeEvent s) v (_depthIntrinsics s) (depthImg s) (irImg s)
    (visibleImg s) (pointcloud s) (vbo s).

Definition set_depthIntrinsics (v : Intrinsics) (s : State) : State :=
  mkState (_captureSession s) (_isStreaming s) (_streamOnReady s)
    (_isFrameNew s) (_depthDirty s) (_irDirty s) (_visibleDirty s)
    (_depthFrame s) (_irFrame s) (_visibleFrame s) (_accelerometerEvent s)
    (_gyroscopeEvent s) (_depthProjectionMatrix s) v (depthImg s) (irImg s)
    (visibleImg s) (pointcloud s) (vbo s).

Definition set_depthImg (v : ofImage float32) (s : State) : State :=
  mkState (_captureSession s) (_isStreaming s) (_streamOnReady s)
    (_isFrameNew s) (_depthDirty s) (_irDirty s) (_visibleDirty s)
    (_depthFrame s) (_irFrame s) (_visibleFrame s) (_accelerometerEvent s)
    (_gyroscopeEvent s) (_depthProjectionMatrix s) (_depthIntrinsics s) v
    (irImg s) (visibleImg s) (pointcloud s) (vbo s).

Definition set_irImg (v : ofImage Z) (s : State) : State :=
  mkState (_captureSession s) (_isStreaming s) (_streamOnReady s)
    (_isFrameNew s) (_depthDirty s) (_irDirty s) (_visibleDirty s)
    (_depthFrame s) (_irFrame s) (_visibleFrame s) (_accelerometerEvent s)
    (_gyroscopeEvent s) (_depthProjectionMatrix s) (_depthIntrinsics s)
    (depthImg s) v (visibleImg s) (pointcloud s) (vbo s).

Definition set_visibleImg (v : ofImage Z) (s : State) : State :=
  mkState (_captureSession s) (_isStreaming s) (_streamOnReady s)
    (_isFrameNew s) (_depthDirty s) (_irDirty s) (_visibleDirty s)
    (_depthFrame s) (_irFrame s) (_visibleFrame s) (_accelerometerEvent s)
    (_gyroscopeEvent s) (_depthProjectionMatrix s) (_depthIntrinsics s)
    (depthImg s) (irImg s) v (pointcloud s) (vbo s).

Definition set_pointcloud (v : PointCloud) (s : State) : State :=
  mkState (_captureSession s) (_isStreaming s) (_streamOnReady s)
    (_isFrameNew s) (_depthDirty s) (_irDirty s) (_visibleDirty s)
    (_depthFrame s) (_irFrame s) (_visibleFrame s) (_accelerometerEvent s)
    (_gyroscopeEvent s) (_depthProjectionMatrix s) (_depthIntrinsics s)
    (depthImg s) (irImg s) (visibleImg s) v (vbo s).

Definition set_vbo (v : ofVbo) (s : State) : State :=
  mkState (_captureSession s) (_isStreaming s) (_streamOnReady s)
    (_isFrameNew s) (_depthDirty s) (_irDirty s) (_visibleDirty s)
    (_depthFrame s) (_irFrame s) (_visibleFrame s) (_accelerometerEvent s)
    (_gyroscopeEvent s) (_depthProjectionMatrix s) (_depthIntrinsics s)
    (depthImg s) (irImg s) (visibleImg s) (pointcloud s) v.

(** [setup], lines 8-15.  Both branches of the conditional only write to the
    log.  The function is declared to return [bool], but its body ends
    without a [return] statement: the caller receives no determined value,
    which is [None] here. *)
Definition setup (settings : Settings) (s : State) : option bool * State :=
  let '(_, cs) := startMonitoring settings (_captureSession s) in
  (None, set_captureSession cs s).

(** [start], lines 17-26. *)
Definition start (s : State) : bool * State :=
  let '(ok, cs) := startStreaming (_captureSession s) in
  let s := set_isStreaming ok (set_captureSession cs s) in
  let s :=
    if negb (_isStreaming s) && negb (_streamOnReady s)
    then set_streamOnReady true s
    else s in
  (_isStreaming s, s).

(** [stop], lines 28-33. *)
Definition stop (s : State) : State :=
  let s := set_captureSession (stopStreaming (_captureSession s)) s in
  let s := set_isStreaming false s in
  set_streamOnReady false s.

(** [updatePointCloud], lines 210-236. *)
Definition updatePointCloud (s : State) : State :=
  let cols := getWidth (depthImg s) in
  let rows := getHeight (depthImg s) in
  let depths := pix_data (getPixels (depthImg s)) in
  let K := _depthIntrinsics s in
  let nVerts := Int.to_size_t (Int.mul rows cols) in
  let verts := vertices_resize nVerts (vertices (pointcloud s)) in
  let verts := rows_loop rows cols depths K verts in
  let s := set_pointcloud (mkPointCloud verts) s in
  set_vbo (setVertexData verts nVerts GL_STATIC_DRAW) s.

(** The three blocks of [update], lines 39-48, 49-56 and 57-64. *)
Definition drain_depth (s : State) : State :=
  if _depthDirty s then
    let px := setFromPixels (depthInMillimeters (_depthFrame s))
                (depth_width (_depthFrame s)) (depth_height (_depthFrame s)) 1 in
    let s := set_depthImg (img_setPixels px (depthImg s)) s in
    let s := set_depthImg (img_update (depthImg s)) s in
    let s := updatePointCloud s in
    set_depthDirty false s
  else s.

Definition drain_ir (s : State) : State :=
  if _irDirty s then
    let px := setFromPixels (ir_data (_irFrame s))
                (ir_width (_irFrame s)) (ir_height (_irFrame s)) 1 in
    let s := set_irImg (img_setPixels px (irImg s)) s in
    let s := set_irImg (img_update (irImg s)) s in
    set_irDirty false s
  else s.

Definition drain_visible (s : State) : State :=
  if _visibleDirty s then
    let px := setFromPixels (rgbData (_visibleFrame s))
                (visible_width (_visibleFrame s)) (visible_height (_visibleFrame s)) 3 in
    let s := set_visibleImg (img_setPixels px (visibleImg s)) s in
    let s := set_visibleImg (img_update (visibleImg s)) s in
    set_visibleDirty false s
  else s.

(** [update], lines 35-65. *)
Definition update (s : State) : State :=
  let s := set_isFrameNew (_depthDirty s || _irDirty s || _visibleDirty s) s in
  let s := drain_depth s in
  let s := drain_ir s in
  drain_visible s.

(** The replace-and-mark-dirty of one modality. *)
Definition store_depth (f : DepthFrame) (s : State) : State :=
  set_depthDirty true (set_depthFrame f s).

Definition store_visible (f : ColorFrame) (s : State) : State :=
  set_visibleDirty true (set_visibleFrame f s).

Definition store_ir (f : InfraredFrame) (s : State) : State :=
  set_irDirty true (set_irFrame f s).

(** The [switch] of [handleNewFrame], lines 116-166. *)
Definition dispatch_frame (frame : Frame) (s : State) : State :=
  match type frame with
  | T_DepthFrame => store_depth (depthFrame frame) s
  | T_VisibleFrame => store_visible (visibleFrame frame) s
  | T_InfraredFrame => store_ir (infraredFrame frame) s
  | T_SynchronizedFrames =>
      let s := if depth_isValid (depthFrame frame)
               then store_depth (depthFrame frame) s else s in
      let s := if visible_isValid (visibleFrame frame)
               then store_visible (visibleFrame frame) s else s in
      if ir_isValid (infraredFrame frame)
      then store_ir (infraredFrame frame) s else s
  | T_AccelerometerEvent => set_accelerometerEvent (accelerometerEvent frame) s
  | T_GyroscopeEvent => set_gyroscopeEvent (gyroscopeEvent frame) s
  | T_Other _ => s
  end.

(** The capture of the calibration, lines 167-174. *)
Definition capture_calibration (s : State) : State :=
  if _depthDirty s && mat4_eqb (_depthProjectionMatrix s) mat4_identity then
    let s := set_depthProjectionMatrix
               (make_mat4 (glProjectionMatrix (_depthFrame s))) s in
    set_depthIntrinsics (intrinsics (_depthFrame s)) s
  else s.

(** [handleNewFrame], lines 112-175. *)
Definition handleNewFrame (frame : Frame) (s : State) : State :=
  capture_calibration (dispatch_frame frame s).

(** [handleSessionEvent], lines 177-208. *)
Definition handleSessionEvent (evt : EventType) (s : State) : State :=
  match evt with
  | Booting => s
  | Ready => if _streamOnReady s then snd (start s) else s
  | Connected => s
  | Streaming => set_isStreaming true s
  | Disconnected => set_isStreaming false s
  | Error => s
  | OtherEvent _ => s
  end.

(** ** Histories

    What the application and the capture session may do to the object. *)
Inductive Call : Type :=
  | CallSetup (settings : Settings)
  | CallStart
  | CallStop
  | CallUpdate
  | OnNewFrame (frame : Frame)
  | OnSessionEvent (evt : EventType).

Definition step (s : State) (c : Call) : State :=
  match c with
  | CallSetup settings => snd (setup settings s)
  | CallStart => snd (start s)
  | CallStop => stop s
  | CallUpdate => update s
  | OnNewFrame frame => handleNewFrame frame s
  | OnSessionEvent evt => handleSessionEvent evt s
  end.

Definition run (calls : list Call) (s : State) : State := fold_left step calls s.

End Core.

Arguments State : clear implicits.
Arguments Call : clear implicits.

(** ** Vocabulary of the statements *)

(** A frame that delivers a depth image: a depth frame, or a bundle whose
    depth part is valid. *)
Definition carries_depth (f : Frame) : bool :=
  match type f with
  | T_DepthFrame => true
  | T_SynchronizedFrames => depth_isValid (depthFrame f)
  | _ => false
  end.

(** The kinds [handleNewFrame] has a case for. *)
Definition recognized (t : FrameType) : bool :=
  match t with T_Other _ => false | _ => true end.

(** A depth frame as the sensor delivers it: one sample per pixel, and a
    pixel count that an [int] can hold. *)
Definition depth_frame_ok (f : DepthFrame) : Prop :=
  0 <= depth_width f /\ 0 <= depth_height f /\
  depth_height f * depth_width f <= Int.max_int /\
  length (depthInMillimeters f) = Z.to_nat (depth_width f * depth_height f).

(** The image a depth frame is drained into. *)
Definition depth_image_of (f : DepthFrame) : ofImage float32 :=
  let px := setFromPixels (depthInMillimeters f) (depth_width f) (depth_height f) 1 in
  mkImage px (depth_width f) (depth_height f) (pix_data px).

(** A call that delivers a depth image. *)
Definition delivers_depth {Settings : Type} (c : Call Settings) : bool :=
  match c with
  | OnNewFrame f => carries_depth f
  | _ => false
  end.

(** While a depth frame is pending and the stored projection matrix still
    compares equal to the identity, the stored calibration is the one of
    the pending depth frame. *)
Definition capture_consistent {Session : Type} (s : State Session) : Prop :=
  _depthDirty s = true ->
  mat4_eqb (_depthProjectionMatrix s) mat4_identity = true ->
  _depthProjectionMatrix s = make_mat4 (glProjectionMatrix (_depthFrame s)) /\
  _depthIntrinsics s = intrinsics (_depthFrame s).

(** ** A scripted capture session

    For the examples: the session answers [startMonitoring] and
    [startStreaming] from a script and keeps a log of the calls. *)
Inductive SessionCall : Type := DidStartMonitoring | DidStartStreaming | DidStopStreaming.

Record Scripted : Type := mkScripted { script : list bool; calls : list SessionCall }.

Definition scripted_answer (what : SessionCall) (cs : Scripted) : bool * Scripted :=
  (hd false (script cs), mkScripted (tl (script cs)) (calls cs ++ [what])).

#[export] Instance scripted_session : CaptureSession unit Scripted := {
  startMonitoring := fun _ cs => scripted_answer DidStartMonitoring cs;
  startStreaming := fun cs => scripted_answer DidStartStreaming cs;
  stopStreaming := fun cs => mkScripted (script cs) (calls cs ++ [DidStopStreaming]) }.

(** ** Sample data for the examples *)
Module Sample.

Definition half : float32 := Eval vm_compute in F32.div F32.one (F32.of_int 2).

(** Focal lengths 2 and 4, principal point at (0.5, 0.5). *)
Definition K : Intrinsics :=
  mkIntrinsics (F32.of_int 2) (F32.of_int 4) half half.

(** Another calibration, with focal lengths 8. *)
Definition K' : Intrinsics :=
  mkIntrinsics (F32.of_int 8) (F32.of_int 8) F32.one F32.one.

Definition diag (a : float32) : Matrix4 :=
  mkMatrix4 a F32.zero F32.zero F32.zero
            F32.zero a F32.zero F32.zero
            F32.zero F32.zero a F32.zero
            F32.zero F32.zero F32.zero a.

(** A 2x2 depth frame with depths 1, 2, 0 and 4 millimeters. *)
Definition depthA : DepthFrame :=
  mkDepthFrame true 2 2
    [F32.of_int 1; F32.of_int 2; F32.zero; F32.of_int 4]
    (diag (F32.of_int 2)) K.

(** A 3x1 depth frame with another calibration. *)
Definition depthB : DepthFrame :=
  mkDepthFrame true 3 1
    [F32.of_int 7; F32.of_int 8; F32.of_int 9]
    (diag (F32.of_int 3)) K'.

(** A depth frame whose projection matrix is the identity. *)
Definition depthI : DepthFrame :=
  mkDepthFrame true 1 1 [F32.of_int 5] (diag F32.one) K'.

Definition no_depth : DepthFrame :=
  mkDepthFrame false 0 0 [] (diag F32.zero)
    (mkIntrinsics F32.zero F32.zero F32.zero F32.zero).
Definition no_ir : InfraredFrame := mkInfraredFrame false 0 0 [].
Definition no_visible : ColorFrame := mkColorFrame false 0 0 [].
Definition still : vec3 := mkVec3 F32.zero F32.zero F32.zero.

Definition frame_of (t : FrameType) (d : DepthFrame) : Frame :=
  mkFrame t d no_visible no_ir (mkAccelerometerEvent still) (mkGyroscopeEvent still).

Definition blank_image {A : Type} : ofImage A := mkImage (mkPixels [] 0 0 0) 0 0 [].

(** A fresh object whose capture session will answer from [answers]. *)
Definition fresh (answers : list bool) : State Scripted :=
  mkState (mkScripted answers []) false false false false false false
    no_depth no_ir no_visible (mkAccelerometerEvent still) (mkGyroscopeEvent still)
    mat4_identity (mkIntrinsics F32.zero F32.zero F32.zero F32.zero)
    blank_image blank_image blank_image (mkPointCloud []) (mkVbo [] GL_STATIC_DRAW).

(** The object after frame [depthA] was delivered and drained. *)
Definition drained : State Scripted :=
  update (handleNewFrame (frame_of T_DepthFrame depthA) (fresh [])).

(** The same object with the 3x1 image of [depthB] put in place: four
    vertices from the rebuild before, three pixels now. *)
Definition resized : State Scripted :=
  set_depthImg (depth_image_of depthB) drained.

End Sample.

(** ** The list of connected devices

    [listDevices] is a static member function: it asks the SDK for the
    connected sensors and returns their serial numbers.  The SDK fills an
    array of ten pointers, some of which may be null, and a count. *)
Record ConnectedSensorInfo : Type := mkSensorInfo {
  serial : string;
  product : string;
  available : bool;
  booted : bool }.

(** What [ST::enumerateConnectedSensors] hands back. *)
Record Enumeration : Type := mkEnumeration {
  sensors : list (option ConnectedSensorInfo);
  count : Z }.

(** The body of the loop, lines 92-102: the serial numbers pushed so far
    and the sensors written to the log stream so far.  A slot beyond the
    array is read as a null pointer. *)
Definition listDevices_body (found : Enumeration) (bLog : bool)
    (acc : list string * list ConnectedSensorInfo) (i : Z)
    : list string * list ConnectedSensorInfo :=
  match sensors found !! Z.to_nat i with
  | Some (Some info) =>
      (fst acc ++ [serial info], if bLog then snd acc ++ [info] else snd acc)
  | _ => acc
  end.

(** [listDevices], lines 83-108.  The result is the vector of serial
    numbers; the second component is what is logged when [bLog] is set:
    the number of devices and the sensors described. *)
Definition listDevices (found : Enumeration) (bLog : bool)
    : list string * option (nat * list ConnectedSensorInfo) :=
  let acc := fold_left (listDevices_body found bLog) (seqZ 0 (count found)) ([], []) in
  (fst acc, if bLog then Some (length (fst acc), snd acc) else None).

(** ** More vocabulary *)

Definition carries_ir (f : Frame) : bool :=
  match type f with
  | T_InfraredFrame => true
  | T_SynchronizedFrames => ir_isValid (infraredFrame f)
  | _ => false
  end.

Definition carries_visible (f : Frame) : bool :=
  match type f with
  | T_VisibleFrame => true
  | T_SynchronizedFrames => visible_isValid (visibleFrame f)
  | _ => false
  end.

(** The images an infrared and a colour frame are drained into. *)
Definition ir_image_of (f : InfraredFrame) : ofImage Z :=
  let px := setFromPixels (ir_data f) (ir_width f) (ir_height f) 1 in
  mkImage px (ir_width f) (ir_height f) (pix_data px).

Definition visible_image_of (f : ColorFrame) : ofImage Z :=
  let px := setFromPixels (rgbData f) (visible_width f) (visible_height f) 3 in
  mkImage px (visible_width f) (visible_height f) (pix_data px).

(** Groups of member variables. *)
Definition same_session {Session : Type} (s s' : State Session) : Prop :=
  _captureSession s' = _captureSession s /\ _isStreaming s' = _isStreaming s /\
  _streamOnReady s' = _streamOnReady s.

Definition same_slots {Session : Type} (s s' : State Session) : Prop :=
  _depthFrame s' = _depthFrame s /\ _irFrame s' = _irFrame s /\
  _visibleFrame s' = _visibleFrame s /\
  _accelerometerEvent s' = _accelerometerEvent s /\
  _gyroscopeEvent s' = _gyroscopeEvent s /\
  _depthProjectionMatrix s' = _depthProjectionMatrix s /\
  _depthIntrinsics s' = _depthIntrinsics s.

Definition same_flags {Session : Type} (s s' : State Session) : Prop :=
  _depthDirty s' = _depthDirty s /\ _irDirty s' = _irDirty s /\
  _visibleDirty s' = _visibleDirty s.

Definition same_outputs {Session : Type} (s s' : State Session) : Prop :=
  depthImg s' = depthImg s /\ irImg s' = irImg s /\ visibleImg s' = visibleImg s /\
  pointcloud s' = pointcloud s /\ vbo s' = vbo s /\ _isFrameNew s' = _isFrameNew s.

(** The calls that neither deliver a frame nor drain. *)
Definition is_control {Settings : Type} (c : Call Settings) : bool :=
  match c with
  | CallUpdate | OnNewFrame _ => false
  | _ => true
  end.

(** The vertex the rebuild computes for the pixel with index [j]. *)
Definition vertex_of_pixel (cols : Z) (depths : list float32) (K : Intrinsics)
    (j : Z) : vec3 :=
  unproject K (j / cols) (j mod cols) (read_at depths j).

(** ** More sample data *)
Module Sample2.

Definition irA : InfraredFrame := mkInfraredFrame true 2 1 [100; 200].
Definition irB : InfraredFrame := mkInfraredFrame true 1 2 [7; 9].
Definition rgbA : ColorFrame := mkColorFrame true 1 1 [10; 20; 30].
Definition rgbB : ColorFrame := mkColorFrame true 2 1 [1; 2; 3; 4; 5; 6].

Definition frame_with (t : FrameType) (d : DepthFrame) (v : ColorFrame)
    (i : InfraredFrame) : Frame :=
  mkFrame t d v i (mkAccelerometerEvent Sample.still) (mkGyroscopeEvent Sample.still).

Definition gravity : vec3 := mkVec3 F32.zero (F32.of_int (-10)) F32.zero.

Definition accel_frame : Frame :=
  mkFrame T_AccelerometerEvent Sample.no_depth Sample.no_visible Sample.no_ir
    (mkAccelerometerEvent gravity) (mkGyroscopeEvent Sample.still).

(** A 1x2 depth frame with one invalid pixel. *)
Definition depthN : DepthFrame :=
  mkDepthFrame true 2 1 [S754_nan; F32.of_int 3] (Sample.diag (F32.of_int 2)) Sample.K.

Definition sensorA : ConnectedSensorInfo := mkSensorInfo "A1" "Core" true true.
Definition sensorB : ConnectedSensorInfo := mkSensorInfo "B2" "Core" false true.

(** Three slots reported, the middle one null. *)
Definition found : Enumeration :=
  mkEnumeration [Some sensorA; None; Some sensorB; None] 3.

End Sample2.

(** * Properties *)

(** ** Machine integers in range *)

Lemma wrap_in_range (z : Z) :
  - 2147483648 <= z <= Int.max_int -> Int.wrap z = z.
Proof.
  unfold Int.wrap, Int.max_int. intros Hz.
  rewrite Z.mod_small by lia. lia.
Qed.

Lemma to_size_t_in_range (z : Z) :
  0 <= z <= Int.max_int -> Int.to_size_t z = z.
Proof.
  unfold Int.to_size_t, Int.max_int. intros Hz.
  apply Z.mod_small. lia.
Qed.

(** The index [r * cols + c] of a pixel of an image that an [int] can
    count is computed without wrap-around. *)
Lemma pixel_index_exact (rows cols r c : Z) :
  0 <= r < rows -> 0 <= c < cols -> rows * cols <= Int.max_int ->
  Int.add (Int.mul r cols) c = r * cols + c /\ 0 <= r * cols + c < rows * cols.
Proof.
  intros Hr Hc Hmax.
  assert (Hlt : r * cols + c < rows * cols) by nia.
  assert (Hge : 0 <= r * cols) by nia.
  unfold Int.add, Int.mul.
  rewrite (wrap_in_range (r * cols)) by (unfold Int.max_int in *; lia).
  rewrite wrap_in_range by (unfold Int.max_int in *; lia).
  lia.
Qed.

(** ** Array accesses inside the array *)

Lemma read_at_lookup (l : list float32) (i : Z) (d : float32) :
  0 <= i -> l !! Z.to_nat i = Some d -> read_at l i = d.
Proof.
  intros Hi Hl. unfold read_at.
  destruct (Z.ltb_spec i 0) as [Hneg|_]; [lia|].
  now rewrite Hl.
Qed.

Lemma length_write_at (i : Z) (v : vec3) (l : list vec3) :
  length (write_at i v l) = length l.
Proof.
  unfold write_at. destruct (i <? 0); [reflexivity|apply length_insert].
Qed.

Lemma lookup_write_at (i : Z) (v : vec3) (l : list vec3) (j : nat) :
  0 <= i -> (Z.to_nat i < length l)%nat ->
  write_at i v l !! j = if decide (j = Z.to_nat i) then Some v else l !! j.
Proof.
  intros Hi Hlen. unfold write_at.
  destruct (Z.ltb_spec i 0) as [Hneg|_]; [lia|].
  destruct (decide (j = Z.to_nat i)) as [->|Hne].
  - now apply list_lookup_insert_eq.
  - apply list_lookup_insert_ne. congruence.
Qed.

(** ** The loops of the rebuild *)

Lemma length_pixel_fold cols depths K r (cs : list Z) verts :
  length (fold_left (pixel_body cols depths K r) cs verts) = length verts.
Proof.
  revert verts. induction cs as [|c cs IH]; intros verts; simpl; [reflexivity|].
  rewrite IH. apply length_write_at.
Qed.

Lemma length_row_loop cols depths K verts r :
  length (row_loop cols depths K verts r) = length verts.
Proof. apply length_pixel_fold. Qed.

Lemma length_rows_loop rows cols depths K verts :
  length (rows_loop rows cols depths K verts) = length verts.
Proof.
  unfold rows_loop. generalize (seqZ 0 rows) as rs. intros rs.
  revert verts. induction rs as [|r rs IH]; intros verts; simpl; [reflexivity|].
  rewrite IH. apply length_row_loop.
Qed.

(** After the first [n] iterations of the inner loop on row [r], the
    vertices [r*cols .. r*cols+n-1] are the unprojected pixels and every
    other vertex is as before. *)
Lemma row_prefix_lookup rows cols depths K r verts (n j : nat) :
  0 <= r < rows -> Z.of_nat n <= cols -> rows * cols <= Int.max_int ->
  (Z.to_nat (rows * cols) <= length verts)%nat ->
  fold_left (pixel_body cols depths K r) (seqZ 0 (Z.of_nat n)) verts !! j =
    if decide (r * cols <= Z.of_nat j < r * cols + Z.of_nat n)
    then Some (unproject K r (Z.of_nat j - r * cols) (read_at depths (Z.of_nat j)))
    else verts !! j.
Proof.
  intros Hr Hn Hmax Hlen. induction n as [|n IH].
  - simpl. destruct (decide _) as [Hin|_]; [lia|reflexivity].
  - rewrite seqZ_S, fold_left_app. simpl. unfold pixel_body at 1.
    rewrite Z.add_0_l.
    destruct (pixel_index_exact rows cols r (Z.of_nat n)) as [-> Hidx];
      [lia|lia|assumption|].
    rewrite lookup_write_at.
    + destruct (decide (j = Z.to_nat (r * cols + Z.of_nat n))) as [->|Hne].
      * clear IH. rewrite Z2Nat.id by lia.
        destruct (decide _) as [_|Hout]; [|lia].
        do 2 f_equal. lia.
      * rewrite IH by lia.
        destruct (decide (r * cols <= Z.of_nat j < r * cols + Z.of_nat n));
          destruct (decide (r * cols <= Z.of_nat j < r * cols + Z.of_nat (S n)));
          try reflexivity; lia.
    + lia.
    + rewrite length_pixel_fold. lia.
Qed.

(** After the first [m] iterations of the outer loop, the vertices
    [0 .. m*cols-1] are the unprojected pixels, row by row, and every other
    vertex is as before. *)
Lemma rows_prefix_lookup rows cols depths K verts (m j : nat) :
  Z.of_nat m <= rows -> 0 <= cols -> rows * cols <= Int.max_int ->
  (Z.to_nat (rows * cols) <= length verts)%nat ->
  fold_left (row_loop cols depths K) (seqZ 0 (Z.of_nat m)) verts !! j =
    if decide (Z.of_nat j < Z.of_nat m * cols)
    then Some (unproject K (Z.of_nat j / cols) (Z.of_nat j mod cols)
                 (read_at depths (Z.of_nat j)))
    else verts !! j.
Proof.
  intros Hm Hcols Hmax Hlen. induction m as [|m IH].
  - simpl. destruct (decide _) as [Hin|_]; [lia|reflexivity].
  - rewrite seqZ_S, fold_left_app. simpl. rewrite Z.add_0_l.
    assert (HS : Z.of_nat (S m) * cols = Z.of_nat m * cols + cols) by lia.
    rewrite HS. clear HS.
    unfold row_loop at 1.
    rewrite <- (Z2Nat.id cols) at 2 by assumption.
    rewrite (row_prefix_lookup rows);
      [ | lia | lia | assumption
        | fold (rows_loop (Z.of_nat m) cols depths K verts);
          rewrite length_rows_loop; assumption ].
    rewrite Z2Nat.id by assumption.
    destruct (decide (Z.of_nat m * cols <= Z.of_nat j < Z.of_nat m * cols + cols))
      as [Hin|Hout].
    + clear IH. destruct (decide _) as [_|Hge]; [|lia].
      assert (Hq : Z.of_nat j / cols = Z.of_nat m)
        by (symmetry; apply (Z.div_unique _ _ _ (Z.of_nat j - Z.of_nat m * cols)); lia).
      assert (Hrem : Z.of_nat j mod cols = Z.of_nat j - Z.of_nat m * cols)
        by (symmetry; apply (Z.mod_unique _ _ (Z.of_nat m)); lia).
      now rewrite Hq, Hrem.
    + rewrite IH by lia.
      destruct (decide (Z.of_nat j < Z.of_nat m * cols));
        destruct (decide (Z.of_nat j < Z.of_nat m * cols + cols));
        try reflexivity; lia.
Qed.

(** The whole rebuild, vertex by vertex. *)
Lemma rows_loop_lookup rows cols depths K verts (j : nat) :
  0 <= rows -> 0 <= cols -> rows * cols <= Int.max_int ->
  length verts = Z.to_nat (rows * cols) ->
  Z.of_nat j < rows * cols ->
  rows_loop rows cols depths K verts !! j =
    Some (unproject K (Z.of_nat j / cols) (Z.of_nat j mod cols)
            (read_at depths (Z.of_nat j))).
Proof.
  intros Hrows Hcols Hmax Hlen Hj. unfold rows_loop.
  rewrite <- (Z2Nat.id rows) at 1 by assumption.
  rewrite (rows_prefix_lookup rows) by lia.
  rewrite Z2Nat.id by assumption.
  destruct (decide _) as [_|Hge]; [reflexivity|lia].
Qed.

(** ** Zero depth *)

(** Zero times a finite offset, divided by a focal length that is a number
    other than zero, is zero. *)
Lemma zero_depth_component (d offset focal : float32) :
  F32.is_zero d = true -> F32.is_finite offset = true ->
  F32.is_divisor focal = true ->
  F32.eqb (F32.div (F32.mul d offset) focal) F32.zero = true.
Proof.
  destruct d as [sd| | |]; try discriminate. intros _.
  destruct offset as [so| | |so mo eo]; try discriminate; intros _;
    destruct focal as [|sf| |sf mf ef]; try discriminate; intros _;
    reflexivity.
Qed.

Lemma unproject_zero_depth (K : Intrinsics) (r c : Z) (d : float32) :
  F32.is_zero d = true ->
  F32.is_finite (F32.sub (F32.of_int c) (cx K)) = true ->
  F32.is_finite (F32.sub (F32.of_int r) (cy K)) = true ->
  F32.is_divisor (fx K) = true -> F32.is_divisor (fy K) = true ->
  vec3_eqb (unproject K r c d) vec3_default = true.
Proof.
  intros Hd Hc Hr Hfx Hfy. unfold vec3_eqb, unproject. simpl.
  rewrite (zero_depth_component d _ (fx K)) by assumption.
  rewrite (zero_depth_component d _ (fy K)) by assumption.
  destruct d; try discriminate. reflexivity.
Qed.

Section Properties.

Context {Settings Session : Type} `{CaptureSession Settings Session}.

Implicit Types (s : State Session) (f : Frame) (c : Call Settings).

(** ** The rebuild of the point cloud *)

Lemma updatePointCloud_vertices s :
  vertices (pointcloud (updatePointCloud s)) =
    rows_loop (getHeight (depthImg s)) (getWidth (depthImg s))
      (pix_data (getPixels (depthImg s))) (_depthIntrinsics s)
      (vertices_resize
         (Int.to_size_t (Int.mul (getHeight (depthImg s)) (getWidth (depthImg s))))
         (vertices (pointcloud s))).
Proof. reflexivity. Qed.

Lemma updatePointCloud_length s :
  0 <= getHeight (depthImg s) * getWidth (depthImg s) <= Int.max_int ->
  length (vertices (pointcloud (updatePointCloud s))) =
    Z.to_nat (getHeight (depthImg s) * getWidth (depthImg s)).
Proof.
  intros Hsize. rewrite updatePointCloud_vertices, length_rows_loop.
  unfold vertices_resize, Int.mul. rewrite length_resize.
  rewrite wrap_in_range by lia. now rewrite to_size_t_in_range.
Qed.

Lemma updatePointCloud_lookup s (r c : Z) (d : float32) :
  0 <= r < getHeight (depthImg s) -> 0 <= c < getWidth (depthImg s) ->
  getHeight (depthImg s) * getWidth (depthImg s) <= Int.max_int ->
  pix_data (getPixels (depthImg s)) !! Z.to_nat (r * getWidth (depthImg s) + c)
    = Some d ->
  vertices (pointcloud (updatePointCloud s))
    !! Z.to_nat (r * getWidth (depthImg s) + c)
  = Some (unproject (_depthIntrinsics s) r c d).
Proof.
  set (cols := getWidth (depthImg s)). set (rows := getHeight (depthImg s)).
  intros Hr Hc Hmax Hd.
  assert (Hidx : 0 <= r * cols + c < rows * cols) by nia.
  rewrite updatePointCloud_vertices. fold cols. fold rows.
  rewrite rows_loop_lookup; try lia.
  - rewrite Z2Nat.id by lia.
    assert (Hq : (r * cols + c) / cols = r)
      by (symmetry; apply (Z.div_unique _ _ _ c); lia).
    assert (Hrem : (r * cols + c) mod cols = c)
      by (symmetry; apply (Z.mod_unique _ _ r); lia).
    rewrite Hq, Hrem. f_equal. f_equal.
    apply read_at_lookup; [lia|assumption].
  - unfold vertices_resize, Int.mul. rewrite length_resize.
    rewrite wrap_in_range by lia. rewrite to_size_t_in_range by lia. reflexivity.
Qed.

(** C1.  The rebuild puts, for the pixel in row [r] and column [c] of the
    depth image, whose depth is [d], the vertex
    [(d*(c-cx)/fx, d*(r-cy)/fy, d)] at index [r*cols + c].  The formula is
    applied to every depth alike, zero included; a zero depth then gives a
    vertex whose three coordinates are zero, provided the offsets from the
    principal point are finite and the focal lengths are numbers other than
    zero.  The image is one whose pixels an [int] can count. *)
Theorem updatePointCloud_unprojects s (r c : Z) (d : float32) :
  0 <= r < getHeight (depthImg s) -> 0 <= c < getWidth (depthImg s) ->
  getHeight (depthImg s) * getWidth (depthImg s) <= Int.max_int ->
  pix_data (getPixels (depthImg s)) !! Z.to_nat (r * getWidth (depthImg s) + c)
    = Some d ->
  exists v : vec3,
    vertices (pointcloud (updatePointCloud s))
      !! Z.to_nat (r * getWidth (depthImg s) + c) = Some v
    /\ v = mkVec3
             (F32.div (F32.mul d (F32.sub (F32.of_int c) (cx (_depthIntrinsics s))))
                (fx (_depthIntrinsics s)))
             (F32.div (F32.mul d (F32.sub (F32.of_int r) (cy (_depthIntrinsics s))))
                (fy (_depthIntrinsics s)))
             d
    /\ (F32.is_zero d = true ->
        F32.is_finite (F32.sub (F32.of_int c) (cx (_depthIntrinsics s))) = true ->
        F32.is_finite (F32.sub (F32.of_int r) (cy (_depthIntrinsics s))) = true ->
        F32.is_divisor (fx (_depthIntrinsics s)) = true ->
        F32.is_divisor (fy (_depthIntrinsics s)) = true ->
        vec3_eqb v vec3_default = true).
Proof.
  intros Hr Hc Hmax Hd.
  exists (unproject (_depthIntrinsics s) r c d).
  split; [now apply updatePointCloud_lookup|].
  split; [reflexivity|apply unproject_zero_depth].
Qed.

(** C8.  After the rebuild there is one vertex per pixel of the depth
    image, whatever number of vertices there was before; the buffer on the
    GPU receives as many.  The image is one whose pixels an [int] can
    count. *)
Theorem updatePointCloud_vertex_count s :
  0 <= getHeight (depthImg s) * getWidth (depthImg s) <= Int.max_int ->
  depthImg (updatePointCloud s) = depthImg s /\
  length (vertices (pointcloud (updatePointCloud s))) =
    Z.to_nat (getWidth (depthImg (updatePointCloud s))
              * getHeight (depthImg (updatePointCloud s))) /\
  vbo_vertices (vbo (updatePointCloud s)) = vertices (pointcloud (updatePointCloud s)).
Proof.
  intros Hsize. split; [reflexivity|].
  assert (Hlen := updatePointCloud_length s Hsize).
  split.
  - change (depthImg (updatePointCloud s)) with (depthImg s).
    rewrite Hlen. f_equal. lia.
  - change (vbo_vertices (vbo (updatePointCloud s))) with
      (take (Z.to_nat (Int.to_size_t
               (Int.mul (getHeight (depthImg s)) (getWidth (depthImg s)))))
            (vertices (pointcloud (updatePointCloud s)))).
    apply take_ge. rewrite Hlen. unfold Int.mul.
    rewrite wrap_in_range by lia. rewrite to_size_t_in_range by lia. lia.
Qed.

(** ** What each member function leaves alone *)

Lemma set_calibration_same s :
  set_depthIntrinsics (_depthIntrinsics s)
    (set_depthProjectionMatrix (_depthProjectionMatrix s) s) = s.
Proof. destruct s. reflexivity. Qed.

(** [update] is its three blocks in sequence. *)
Lemma update_blocks s :
  update s =
    drain_visible (drain_ir (drain_depth
      (set_isFrameNew (_depthDirty s || _irDirty s || _visibleDirty s) s))).
Proof. reflexivity. Qed.

Lemma drain_depth_clean s : _depthDirty s = false -> drain_depth s = s.
Proof. intros Hd. unfold drain_depth. now rewrite Hd. Qed.

Lemma drain_ir_clean s : _irDirty s = false -> drain_ir s = s.
Proof. intros Hd. unfold drain_ir. now rewrite Hd. Qed.

Lemma drain_visible_clean s : _visibleDirty s = false -> drain_visible s = s.
Proof. intros Hd. unfold drain_visible. now rewrite Hd. Qed.

Lemma drain_depth_dirty s :
  _depthDirty s = true ->
  drain_depth s =
    set_depthDirty false
      (updatePointCloud (set_depthImg (depth_image_of (_depthFrame s)) s)).
Proof. intros Hd. unfold drain_depth. rewrite Hd. reflexivity. Qed.

(** What the infrared and the visible block leave alone. *)
Lemma drain_ir_frame s :
  depthImg (drain_ir s) = depthImg s /\ pointcloud (drain_ir s) = pointcloud s /\
  _depthDirty (drain_ir s) = _depthDirty s /\
  _isFrameNew (drain_ir s) = _isFrameNew s /\
  _depthProjectionMatrix (drain_ir s) = _depthProjectionMatrix s /\
  _depthIntrinsics (drain_ir s) = _depthIntrinsics s /\
  _depthFrame (drain_ir s) = _depthFrame s /\
  _streamOnReady (drain_ir s) = _streamOnReady s.
Proof. unfold drain_ir. destruct (_irDirty s); repeat split. Qed.

Lemma drain_visible_frame s :
  depthImg (drain_visible s) = depthImg s /\
  pointcloud (drain_visible s) = pointcloud s /\
  _depthDirty (drain_visible s) = _depthDirty s /\
  _isFrameNew (drain_visible s) = _isFrameNew s /\
  _depthProjectionMatrix (drain_visible s) = _depthProjectionMatrix s /\
  _depthIntrinsics (drain_visible s) = _depthIntrinsics s /\
  _depthFrame (drain_visible s) = _depthFrame s /\
  _streamOnReady (drain_visible s) = _streamOnReady s.
Proof. unfold drain_visible. destruct (_visibleDirty s); repeat split. Qed.

Lemma drain_depth_frame s :
  _isFrameNew (drain_depth s) = _isFrameNew s /\
  _depthProjectionMatrix (drain_depth s) = _depthProjectionMatrix s /\
  _depthIntrinsics (drain_depth s) = _depthIntrinsics s /\
  _depthFrame (drain_depth s) = _depthFrame s /\
  _streamOnReady (drain_depth s) = _streamOnReady s /\
  _depthDirty (drain_depth s) = false.
Proof.
  unfold drain_depth. destruct (_depthDirty s) eqn:Hd; repeat split. exact Hd.
Qed.

Lemma update_no_frames s :
  _depthDirty s = false -> _irDirty s = false -> _visibleDirty s = false ->
  update s = set_isFrameNew false s.
Proof.
  intros Hd Hi Hv. rewrite update_blocks, Hd, Hi, Hv. simpl orb.
  rewrite drain_depth_clean by exact Hd.
  rewrite drain_ir_clean by exact Hi.
  now rewrite drain_visible_clean by exact Hv.
Qed.

Lemma update_depthImg s :
  depthImg (update s) =
    if _depthDirty s then depth_image_of (_depthFrame s) else depthImg s.
Proof.
  rewrite update_blocks.
  destruct (drain_visible_frame (drain_ir (drain_depth
    (set_isFrameNew (_depthDirty s || _irDirty s || _visibleDirty s) s)))) as (-> & _).
  destruct (drain_ir_frame (drain_depth
    (set_isFrameNew (_depthDirty s || _irDirty s || _visibleDirty s) s))) as (-> & _).
  destruct (_depthDirty s) eqn:Hd.
  - rewrite drain_depth_dirty by exact Hd. reflexivity.
  - rewrite drain_depth_clean by exact Hd. reflexivity.
Qed.

Lemma update_pointcloud s :
  pointcloud (update s) =
    if _depthDirty s
    then pointcloud (updatePointCloud (set_depthImg (depth_image_of (_depthFrame s)) s))
    else pointcloud s.
Proof.
  rewrite update_blocks.
  destruct (drain_visible_frame (drain_ir (drain_depth
    (set_isFrameNew (_depthDirty s || _irDirty s || _visibleDirty s) s))))
    as (_ & -> & _).
  destruct (drain_ir_frame (drain_depth
    (set_isFrameNew (_depthDirty s || _irDirty s || _visibleDirty s) s)))
    as (_ & -> & _).
  destruct (_depthDirty s) eqn:Hd.
  - rewrite drain_depth_dirty by exact Hd. reflexivity.
  - rewrite drain_depth_clean by exact Hd. reflexivity.
Qed.

Lemma update_calibration s :
  _depthProjectionMatrix (update s) = _depthProjectionMatrix s /\
  _depthIntrinsics (update s) = _depthIntrinsics s /\
  _depthFrame (update s) = _depthFrame s /\
  _streamOnReady (update s) = _streamOnReady s /\
  _depthDirty (update s) = false /\
  _isFrameNew (update s) = _depthDirty s || _irDirty s || _visibleDirty s.
Proof.
  rewrite update_blocks.
  destruct (drain_visible_frame (drain_ir (drain_depth
    (set_isFrameNew (_depthDirty s || _irDirty s || _visibleDirty s) s))))
    as (_ & _ & -> & -> & -> & -> & -> & ->).
  destruct (drain_ir_frame (drain_depth
    (set_isFrameNew (_depthDirty s || _irDirty s || _visibleDirty s) s)))
    as (_ & _ & -> & -> & -> & -> & -> & ->).
  destruct (drain_depth_frame
    (set_isFrameNew (_depthDirty s || _irDirty s || _visibleDirty s) s))
    as (-> & -> & -> & -> & -> & ->).
  repeat split.
Qed.

Lemma update_depthDirty s : _depthDirty (update s) = false.
Proof. apply update_calibration. Qed.

(** C6.  [update] sets the is-new-frame signal to the disjunction of the
    three dirty flags as they are on entry; when none of them is set, the
    three images, the point cloud and the GPU buffer stay as they are and
    the signal is false. *)
Theorem update_is_frame_new s :
  _isFrameNew (update s) = _depthDirty s || _irDirty s || _visibleDirty s
  /\ (_depthDirty s = false -> _irDirty s = false -> _visibleDirty s = false ->
      depthImg (update s) = depthImg s /\ irImg (update s) = irImg s /\
      visibleImg (update s) = visibleImg s /\
      pointcloud (update s) = pointcloud s /\ vbo (update s) = vbo s /\
      _isFrameNew (update s) = false).
Proof.
  split.
  - apply update_calibration.
  - intros Hd Hi Hv. rewrite update_no_frames by assumption.
    repeat split.
Qed.

(** ** Delivery of frames *)

Lemma dispatch_calibration f s :
  _depthProjectionMatrix (dispatch_frame f s) = _depthProjectionMatrix s /\
  _depthIntrinsics (dispatch_frame f s) = _depthIntrinsics s.
Proof.
  unfold dispatch_frame, store_depth, store_visible, store_ir.
  destruct (type f); try (split; reflexivity).
  destruct (depth_isValid (depthFrame f)), (visible_isValid (visibleFrame f)),
    (ir_isValid (infraredFrame f)); split; reflexivity.
Qed.

Lemma dispatch_depth f s :
  _depthFrame (dispatch_frame f s) =
    (if carries_depth f then depthFrame f else _depthFrame s) /\
  _depthDirty (dispatch_frame f s) = carries_depth f || _depthDirty s.
Proof.
  unfold dispatch_frame, carries_depth, store_depth, store_visible, store_ir.
  destruct (type f); try (split; reflexivity).
  destruct (depth_isValid (depthFrame f)), (visible_isValid (visibleFrame f)),
    (ir_isValid (infraredFrame f)); split; reflexivity.
Qed.

(** The capture touches the calibration only. *)
Lemma capture_calibration_slots s :
  _depthFrame (capture_calibration s) = _depthFrame s /\
  _depthDirty (capture_calibration s) = _depthDirty s /\
  _irFrame (capture_calibration s) = _irFrame s /\
  _irDirty (capture_calibration s) = _irDirty s /\
  _visibleFrame (capture_calibration s) = _visibleFrame s /\
  _visibleDirty (capture_calibration s) = _visibleDirty s.
Proof.
  unfold capture_calibration.
  destruct (_depthDirty s && mat4_eqb (_depthProjectionMatrix s) mat4_identity);
    repeat split.
Qed.

(** C7.  A bundle of synchronized frames replaces the slot and sets the
    dirty flag of exactly those modalities whose sub-frame is valid.  In
    particular a bundle in which only the depth sub-frame is valid replaces
    the depth slot and sets its flag, and leaves the infrared and visible
    slots and flags as they are. *)
Theorem synchronized_frames_by_modality f s :
  type f = T_SynchronizedFrames ->
  (_depthFrame (handleNewFrame f s) =
     (if depth_isValid (depthFrame f) then depthFrame f else _depthFrame s) /\
   _depthDirty (handleNewFrame f s) = depth_isValid (depthFrame f) || _depthDirty s /\
   _irFrame (handleNewFrame f s) =
     (if ir_isValid (infraredFrame f) then infraredFrame f else _irFrame s) /\
   _irDirty (handleNewFrame f s) = ir_isValid (infraredFrame f) || _irDirty s /\
   _visibleFrame (handleNewFrame f s) =
     (if visible_isValid (visibleFrame f) then visibleFrame f else _visibleFrame s) /\
   _visibleDirty (handleNewFrame f s) =
     visible_isValid (visibleFrame f) || _visibleDirty s)
  /\ (depth_isValid (depthFrame f) = true ->
      visible_isValid (visibleFrame f) = false ->
      ir_isValid (infraredFrame f) = false ->
      _depthFrame (handleNewFrame f s) = depthFrame f /\
      _depthDirty (handleNewFrame f s) = true /\
      _irFrame (handleNewFrame f s) = _irFrame s /\
      _irDirty (handleNewFrame f s) = _irDirty s /\
      _visibleFrame (handleNewFrame f s) = _visibleFrame s /\
      _visibleDirty (handleNewFrame f s) = _visibleDirty s).
Proof.
  intros Hty.
  assert (Hgen :
    _depthFrame (handleNewFrame f s) =
      (if depth_isValid (depthFrame f) then depthFrame f else _depthFrame s) /\
    _depthDirty (handleNewFrame f s) = depth_isValid (depthFrame f) || _depthDirty s /\
    _irFrame (handleNewFrame f s) =
      (if ir_isValid (infraredFrame f) then infraredFrame f else _irFrame s) /\
    _irDirty (handleNewFrame f s) = ir_isValid (infraredFrame f) || _irDirty s /\
    _visibleFrame (handleNewFrame f s) =
      (if visible_isValid (visibleFrame f) then visibleFrame f else _visibleFrame s) /\
    _visibleDirty (handleNewFrame f s) =
      visible_isValid (visibleFrame f) || _visibleDirty s).
  { unfold handleNewFrame.
    destruct (capture_calibration_slots (dispatch_frame f s))
      as (-> & -> & -> & -> & -> & ->).
    unfold dispatch_frame, store_depth, store_visible, store_ir. rewrite Hty.
    destruct (depth_isValid (depthFrame f)), (visible_isValid (visibleFrame f)),
      (ir_isValid (infraredFrame f)); repeat split. }
  split; [exact Hgen|].
  intros Hd Hv Hi. rewrite Hd, Hv, Hi in Hgen. exact Hgen.
Qed.

(** Two deliveries in a row: the depth slot holds the later payload. *)
Lemma handleNewFrame_depth f s :
  _depthFrame (handleNewFrame f s) =
    (if carries_depth f then depthFrame f else _depthFrame s) /\
  _depthDirty (handleNewFrame f s) = carries_depth f || _depthDirty s.
Proof.
  unfold handleNewFrame.
  destruct (capture_calibration_slots (dispatch_frame f s)) as (-> & -> & _).
  apply dispatch_depth.
Qed.

Lemma depth_image_of_size (df : DepthFrame) :
  getWidth (depth_image_of df) = depth_width df /\
  getHeight (depth_image_of df) = depth_height df.
Proof. split; reflexivity. Qed.

Lemma depth_image_of_data (df : DepthFrame) :
  depth_frame_ok df ->
  pix_data (getPixels (depth_image_of df)) = depthInMillimeters df.
Proof.
  intros (Hw & Hh & Hmax & Hlen). unfold depth_image_of, getPixels, setFromPixels.
  simpl. apply take_ge. rewrite Hlen. lia.
Qed.

(** C4.  Of two depth frames delivered before an [update], the second
    replaces the first in the depth slot.  After the [update] the depth image
    holds the pixels of the second frame and the depth dirty flag is
    cleared.  The point cloud has one vertex per pixel of the second frame,
    and the vertex of the pixel in row [r] and column [c] is
    [(d*(c-cx)/fx, d*(r-cy)/fy, d)] with [d] the depth the second frame has
    at that pixel; [fx], [fy], [cx], [cy] are the intrinsics the object has
    stored when the frames are in, which the [update] leaves as they are. *)
Theorem latest_depth_frame_wins f1 f2 s :
  carries_depth f1 = true -> carries_depth f2 = true ->
  _depthFrame (handleNewFrame f2 (handleNewFrame f1 s)) = depthFrame f2
  /\ _depthDirty (handleNewFrame f2 (handleNewFrame f1 s)) = true
  /\ depthImg (update (handleNewFrame f2 (handleNewFrame f1 s)))
       = depth_image_of (depthFrame f2)
  /\ _depthDirty (update (handleNewFrame f2 (handleNewFrame f1 s))) = false
  /\ _depthIntrinsics (update (handleNewFrame f2 (handleNewFrame f1 s)))
       = _depthIntrinsics (handleNewFrame f2 (handleNewFrame f1 s))
  /\ (depth_frame_ok (depthFrame f2) ->
      length (vertices (pointcloud (update (handleNewFrame f2 (handleNewFrame f1 s)))))
        = Z.to_nat (depth_width (depthFrame f2) * depth_height (depthFrame f2))
      /\ forall (r c : Z) (d : float32),
           0 <= r < depth_height (depthFrame f2) ->
           0 <= c < depth_width (depthFrame f2) ->
           depthInMillimeters (depthFrame f2)
             !! Z.to_nat (r * depth_width (depthFrame f2) + c) = Some d ->
           vertices (pointcloud (update (handleNewFrame f2 (handleNewFrame f1 s))))
             !! Z.to_nat (r * depth_width (depthFrame f2) + c)
           = Some (mkVec3
                (F32.div
                   (F32.mul d
                      (F32.sub (F32.of_int c)
                         (cx (_depthIntrinsics
                                (handleNewFrame f2 (handleNewFrame f1 s))))))
                   (fx (_depthIntrinsics (handleNewFrame f2 (handleNewFrame f1 s)))))
                (F32.div
                   (F32.mul d
                      (F32.sub (F32.of_int r)
                         (cy (_depthIntrinsics
                                (handleNewFrame f2 (handleNewFrame f1 s))))))
                   (fy (_depthIntrinsics (handleNewFrame f2 (handleNewFrame f1 s)))))
                d)).
Proof.
  intros Hf1 Hf2.
  set (s2 := handleNewFrame f2 (handleNewFrame f1 s)).
  destruct (handleNewFrame_depth f2 (handleNewFrame f1 s)) as [Hslot Hdirty].
  fold s2 in Hslot, Hdirty. rewrite Hf2 in Hslot, Hdirty. simpl in Hdirty.
  split; [exact Hslot|]. split; [exact Hdirty|].
  split; [rewrite update_depthImg, Hdirty, Hslot; reflexivity|].
  split; [apply update_depthDirty|].
  split; [apply update_calibration|].
  intros Hok. rewrite update_pointcloud, Hdirty, Hslot.
  set (s3 := set_depthImg (depth_image_of (depthFrame f2)) s2).
  destruct (depth_image_of_size (depthFrame f2)) as [Hw Hh].
  pose proof Hok as (Hw0 & Hh0 & Hmax & Hlen).
  split.
  - rewrite updatePointCloud_length.
    + change (depthImg s3) with (depth_image_of (depthFrame f2)).
      rewrite Hw, Hh. f_equal. lia.
    + change (depthImg s3) with (depth_image_of (depthFrame f2)).
      rewrite Hw, Hh. nia.
  - intros r c d Hr Hc Hd.
    pose proof (updatePointCloud_lookup s3 r c d) as Hv.
    change (depthImg s3) with (depth_image_of (depthFrame f2)) in Hv.
    rewrite Hw, Hh, depth_image_of_data in Hv by assumption.
    rewrite (Hv Hr Hc Hmax Hd). reflexivity.
Qed.

(** ** The calibration *)

Lemma setup_calibration settings s :
  _depthProjectionMatrix (snd (setup settings s)) = _depthProjectionMatrix s /\
  _depthIntrinsics (snd (setup settings s)) = _depthIntrinsics s /\
  _depthFrame (snd (setup settings s)) = _depthFrame s /\
  _depthDirty (snd (setup settings s)) = _depthDirty s /\
  _streamOnReady (snd (setup settings s)) = _streamOnReady s.
Proof.
  unfold setup. destruct (startMonitoring settings (_captureSession s)).
  repeat split.
Qed.

Lemma start_calibration s :
  _depthProjectionMatrix (snd (start s)) = _depthProjectionMatrix s /\
  _depthIntrinsics (snd (start s)) = _depthIntrinsics s /\
  _depthFrame (snd (start s)) = _depthFrame s /\
  _depthDirty (snd (start s)) = _depthDirty s.
Proof.
  unfold start. destruct (startStreaming (_captureSession s)) as [ok cs].
  cbv zeta.
  destruct (negb (_isStreaming (set_isStreaming ok (set_captureSession cs s)))
            && negb (_streamOnReady (set_isStreaming ok (set_captureSession cs s))));
    repeat split.
Qed.

Lemma handleSessionEvent_calibration evt s :
  _depthProjectionMatrix (handleSessionEvent evt s) = _depthProjectionMatrix s /\
  _depthIntrinsics (handleSessionEvent evt s) = _depthIntrinsics s /\
  _depthFrame (handleSessionEvent evt s) = _depthFrame s /\
  _depthDirty (handleSessionEvent evt s) = _depthDirty s.
Proof.
  destruct evt; simpl; try (repeat split; fail).
  destruct (_streamOnReady s); [apply start_calibration|repeat split].
Qed.

(** The guard of the capture: nothing is captured unless a depth frame is
    pending and the stored matrix compares equal to the identity. *)
Lemma capture_calibration_guard s :
  _depthDirty s && mat4_eqb (_depthProjectionMatrix s) mat4_identity = false ->
  capture_calibration s = s.
Proof. intros Hg. unfold capture_calibration. now rewrite Hg. Qed.

Lemma capture_calibration_fires s :
  _depthDirty s = true ->
  mat4_eqb (_depthProjectionMatrix s) mat4_identity = true ->
  _depthProjectionMatrix (capture_calibration s)
    = make_mat4 (glProjectionMatrix (_depthFrame s)) /\
  _depthIntrinsics (capture_calibration s) = intrinsics (_depthFrame s).
Proof.
  intros Hd Hm. unfold capture_calibration. rewrite Hd, Hm. split; reflexivity.
Qed.

(** Once the stored matrix differs from the identity, no call changes the
    stored matrix or the intrinsics. *)
Lemma step_calibration_frozen s c :
  mat4_eqb (_depthProjectionMatrix s) mat4_identity = false ->
  _depthProjectionMatrix (step s c) = _depthProjectionMatrix s /\
  _depthIntrinsics (step s c) = _depthIntrinsics s.
Proof.
  intros Hm. destruct c as [settings| | | |f|evt]; simpl.
  - destruct (setup_calibration settings s) as (-> & -> & _). now split.
  - destruct (start_calibration s) as (-> & -> & _). now split.
  - now split.
  - destruct (update_calibration s) as (-> & -> & _). now split.
  - unfold handleNewFrame.
    destruct (dispatch_calibration f s) as [HM HK].
    rewrite capture_calibration_guard; [now split|].
    rewrite HM, Hm. apply andb_false_r.
  - destruct (handleSessionEvent_calibration evt s) as (-> & -> & _). now split.
Qed.

Lemma run_calibration_frozen (calls : list (Call Settings)) s :
  mat4_eqb (_depthProjectionMatrix s) mat4_identity = false ->
  _depthProjectionMatrix (run calls s) = _depthProjectionMatrix s /\
  _depthIntrinsics (run calls s) = _depthIntrinsics s.
Proof.
  revert s. induction calls as [|c calls IH]; intros s Hm; [now split|].
  simpl. destruct (step_calibration_frozen s c Hm) as [HM HK].
  destruct (IH (step s c)) as [HM' HK']; [now rewrite HM|].
  rewrite HM', HK'. now split.
Qed.

(** Before the first depth image arrives nothing is pending and the stored
    matrix stays as it is. *)
Lemma step_before_first_depth s c :
  delivers_depth c = false -> _depthDirty s = false ->
  _depthDirty (step s c) = false /\
  _depthProjectionMatrix (step s c) = _depthProjectionMatrix s.
Proof.
  intros Hc Hd. destruct c as [settings| | | |f|evt]; simpl in *.
  - destruct (setup_calibration settings s) as (-> & _ & _ & -> & _). now split.
  - destruct (start_calibration s) as (-> & _ & _ & ->). now split.
  - now split.
  - destruct (update_calibration s) as (-> & _). split; [apply update_depthDirty|reflexivity].
  - unfold handleNewFrame.
    destruct (dispatch_depth f s) as [_ Hdirty]. rewrite Hc, Hd in Hdirty.
    rewrite capture_calibration_guard by now rewrite Hdirty.
    split; [exact Hdirty|apply dispatch_calibration].
  - destruct (handleSessionEvent_calibration evt s) as (-> & _ & _ & ->). now split.
Qed.

Lemma run_before_first_depth (calls : list (Call Settings)) s :
  Forall (fun c => delivers_depth c = false) calls -> _depthDirty s = false ->
  _depthDirty (run calls s) = false /\
  _depthProjectionMatrix (run calls s) = _depthProjectionMatrix s.
Proof.
  intros Hcalls. revert s.
  induction Hcalls as [|c calls Hc _ IH]; intros s Hd; [now split|].
  simpl. destruct (step_before_first_depth s c Hc Hd) as [Hd' HM].
  destruct (IH _ Hd') as [Hd'' HM']. rewrite HM', HM. now split.
Qed.

Lemma run_app (xs ys : list (Call Settings)) s :
  run (xs ++ ys) s = run ys (run xs s).
Proof. apply fold_left_app. Qed.

(** C2.  The calibration is captured at most once.  Start from an object
    with no depth frame pending and the stored projection matrix at the
    identity.  After any calls that deliver no depth image, and then the
    first frame [f] that delivers one, with a projection matrix that differs
    from the identity, the intrinsics and the matrix are those of [f]; and
    whatever calls follow, frames of any kind included, they stay those
    of [f]. *)
Theorem intrinsics_captured_once (pre post : list (Call Settings)) f s :
  _depthDirty s = false ->
  mat4_eqb (_depthProjectionMatrix s) mat4_identity = true ->
  Forall (fun c => delivers_depth c = false) pre ->
  carries_depth f = true ->
  mat4_eqb (make_mat4 (glProjectionMatrix (depthFrame f))) mat4_identity = false ->
  _depthIntrinsics (run (pre ++ [OnNewFrame f]) s) = intrinsics (depthFrame f)
  /\ _depthProjectionMatrix (run (pre ++ [OnNewFrame f]) s)
       = make_mat4 (glProjectionMatrix (depthFrame f))
  /\ _depthIntrinsics (run post (run (pre ++ [OnNewFrame f]) s))
       = intrinsics (depthFrame f)
  /\ _depthProjectionMatrix (run post (run (pre ++ [OnNewFrame f]) s))
       = make_mat4 (glProjectionMatrix (depthFrame f)).
Proof.
  intros Hd Hm Hpre Hf Hnew.
  destruct (run_before_first_depth pre s Hpre Hd) as [Hd1 HM1].
  rewrite run_app. simpl. set (s1 := run pre s) in *.
  unfold handleNewFrame.
  destruct (dispatch_depth f s1) as [Hslot Hdirty].
  destruct (dispatch_calibration f s1) as [HM _].
  rewrite Hf in Hslot, Hdirty. simpl in Hdirty.
  destruct (capture_calibration_fires (dispatch_frame f s1)) as [HMc HKc];
    [exact Hdirty|now rewrite HM, HM1|].
  rewrite Hslot in HMc, HKc.
  destruct (run_calibration_frozen post (capture_calibration (dispatch_frame f s1)))
    as [HMp HKp]; [now rewrite HMc|].
  rewrite HMp, HKp, HMc, HKc. repeat split.
Qed.

(** ** Frames of an unknown kind *)

Lemma capture_consistent_clean s : _depthDirty s = false -> capture_consistent s.
Proof. intros Hd Hdirty. congruence. Qed.

(** [handleNewFrame] establishes the consistency, whatever the state was. *)
Lemma handleNewFrame_consistent f s : capture_consistent (handleNewFrame f s).
Proof.
  unfold handleNewFrame. generalize (dispatch_frame f s) as s1. intros s1.
  unfold capture_consistent, capture_calibration.
  destruct (_depthDirty s1 && mat4_eqb (_depthProjectionMatrix s1) mat4_identity)
    eqn:Hg.
  - intros _ _. split; reflexivity.
  - intros Hd Hm. rewrite Hd, Hm in Hg. discriminate.
Qed.

Lemma step_consistent s c : capture_consistent s -> capture_consistent (step s c).
Proof.
  intros Hs. destruct c as [settings| | | |f|evt]; simpl.
  - unfold capture_consistent.
    destruct (setup_calibration settings s) as (-> & -> & -> & -> & _). exact Hs.
  - unfold capture_consistent.
    destruct (start_calibration s) as (-> & -> & -> & ->). exact Hs.
  - exact Hs.
  - apply capture_consistent_clean, update_depthDirty.
  - apply handleNewFrame_consistent.
  - unfold capture_consistent.
    destruct (handleSessionEvent_calibration evt s) as (-> & -> & -> & ->). exact Hs.
Qed.

Lemma run_consistent (calls : list (Call Settings)) s :
  capture_consistent s -> capture_consistent (run calls s).
Proof.
  revert s. induction calls as [|c calls IH]; intros s Hs; [exact Hs|].
  simpl. apply IH, step_consistent, Hs.
Qed.

(** In a consistent state the capture assigns what is stored already. *)
Lemma capture_calibration_idle s :
  capture_consistent s -> capture_calibration s = s.
Proof.
  intros Hs. unfold capture_calibration.
  destruct (_depthDirty s) eqn:Hd; [|reflexivity].
  destruct (mat4_eqb (_depthProjectionMatrix s) mat4_identity) eqn:Hm;
    [|reflexivity].
  simpl. destruct (Hs Hd Hm) as [HM HK]. rewrite <- HM.
  change (_depthFrame (set_depthProjectionMatrix (_depthProjectionMatrix s) s))
    with (_depthFrame s).
  rewrite <- HK. apply set_calibration_same.
Qed.

(** C9.  A frame of a kind that [handleNewFrame] has no case for changes
    nothing: in every state that the object reaches from one with no depth
    frame pending, the state after the call is the state before it (slots,
    dirty flags, motion registers, intrinsics, projection matrix and all
    other member variables). *)
Theorem unrecognized_frame_no_change (calls : list (Call Settings)) f s :
  _depthDirty s = false ->
  recognized (type f) = false ->
  handleNewFrame f (run calls s) = run calls s.
Proof.
  intros Hd Hf. unfold handleNewFrame.
  assert (Hdisp : dispatch_frame f (run calls s) = run calls s).
  { unfold dispatch_frame. destruct (type f); try discriminate. reflexivity. }
  rewrite Hdisp. apply capture_calibration_idle, run_consistent.
  now apply capture_consistent_clean.
Qed.

(** ** Starting and stopping *)

Lemma start_result s :
  fst (start s) = fst (startStreaming (_captureSession s)) /\
  _isStreaming (snd (start s)) = fst (startStreaming (_captureSession s)) /\
  _captureSession (snd (start s)) = snd (startStreaming (_captureSession s)) /\
  _streamOnReady (snd (start s)) =
    _streamOnReady s || negb (fst (startStreaming (_captureSession s))).
Proof.
  unfold start. destruct (startStreaming (_captureSession s)) as [ok cs].
  cbv zeta.
  change (_streamOnReady (set_isStreaming ok (set_captureSession cs s)))
    with (_streamOnReady s).
  change (_isStreaming (set_isStreaming ok (set_captureSession cs s))) with ok.
  destruct ok, (_streamOnReady s) eqn:E; repeat split; exact E.
Qed.

Lemma ready_retries s :
  _streamOnReady s = true -> handleSessionEvent Ready s = snd (start s).
Proof. intros Hr. simpl. now rewrite Hr. Qed.

Lemma handleNewFrame_streamOnReady f s :
  _streamOnReady (handleNewFrame f s) = _streamOnReady s.
Proof.
  unfold handleNewFrame, capture_calibration.
  set (s1 := dispatch_frame f s).
  assert (H1 : _streamOnReady s1 = _streamOnReady s).
  { unfold s1, dispatch_frame, store_depth, store_visible, store_ir.
    destruct (type f); try reflexivity.
    destruct (depth_isValid (depthFrame f)), (visible_isValid (visibleFrame f)),
      (ir_isValid (infraredFrame f)); reflexivity. }
  destruct (_depthDirty s1 && mat4_eqb (_depthProjectionMatrix s1) mat4_identity);
    exact H1.
Qed.

(** No call other than [stop] takes the deferred-start flag down. *)
Lemma step_keeps_streamOnReady s c :
  c <> CallStop -> _streamOnReady s = true -> _streamOnReady (step s c) = true.
Proof.
  intros Hc Hr. destruct c as [settings| | | |f|evt]; simpl.
  - destruct (setup_calibration settings s) as (_ & _ & _ & _ & ->). exact Hr.
  - destruct (start_result s) as (_ & _ & _ & ->). now rewrite Hr.
  - congruence.
  - destruct (update_calibration s) as (_ & _ & _ & -> & _). exact Hr.
  - now rewrite handleNewFrame_streamOnReady.
  - destruct evt; simpl; try exact Hr.
    rewrite Hr. destruct (start_result s) as (_ & _ & _ & ->). now rewrite Hr.
Qed.

(** C5.  When the stream does not begin and no deferred start is pending,
    [start] sets the deferred-start flag and returns false.  A [Ready] event
    that arrives while the flag is set runs [start] again: the capture
    session is asked to start streaming a second time. *)
Theorem failed_start_retries_on_ready s :
  fst (startStreaming (_captureSession s)) = false ->
  _streamOnReady s = false ->
  fst (start s) = false
  /\ _streamOnReady (snd (start s)) = true
  /\ handleSessionEvent Ready (snd (start s)) = snd (start (snd (start s)))
  /\ _captureSession (handleSessionEvent Ready (snd (start s)))
       = snd (startStreaming (snd (startStreaming (_captureSession s))))
  /\ (forall s', _streamOnReady s' = true ->
        handleSessionEvent Ready s' = snd (start s')).
Proof.
  intros Hfail Hflag.
  destruct (start_result s) as (Hres & _ & Hcs & Hsor).
  rewrite Hfail in Hres, Hsor. rewrite Hflag in Hsor. simpl in Hsor.
  split; [exact Hres|]. split; [exact Hsor|].
  split; [now apply ready_retries|].
  split; [|exact ready_retries].
  rewrite ready_retries by exact Hsor.
  destruct (start_result (snd (start s))) as (_ & _ & -> & _).
  now rewrite Hcs.
Qed.

(** C10.  A [start] that succeeds leaves the deferred-start flag as it is.
    If the flag was set by an earlier failed [start], it is still set after
    the successful one, and a later [Ready] event runs [start] again.  No
    call other than [stop] clears the flag; [stop] clears it. *)
Theorem successful_start_keeps_flag s :
  fst (startStreaming (_captureSession s)) = true ->
  fst (start s) = true
  /\ _streamOnReady (snd (start s)) = _streamOnReady s
  /\ (_streamOnReady s = true ->
      handleSessionEvent Ready (snd (start s)) = snd (start (snd (start s))))
  /\ (forall s' c, c <> CallStop -> _streamOnReady s' = true ->
        _streamOnReady (step s' c) = true)
  /\ (forall s', _streamOnReady (stop s') = false).
Proof.
  intros Hok. destruct (start_result s) as (Hres & _ & _ & Hsor).
  rewrite Hok in Hres, Hsor. rewrite orb_false_r in Hsor.
  split; [exact Hres|]. split; [exact Hsor|].
  split; [intros Hflag; apply ready_retries; congruence|].
  split; [exact step_keeps_streamOnReady|reflexivity].
Qed.

(** C3.  [setup] hands no determined boolean to its caller, whether or not
    monitoring was brought up: the body has no [return] statement.  The
    answer of the capture session only decides which line is logged. *)
Theorem setup_returns_no_value settings s :
  fst (setup settings s) = None
  /\ _captureSession (snd (setup settings s))
       = snd (startMonitoring settings (_captureSession s)).
Proof.
  unfold setup. destruct (startMonitoring settings (_captureSession s)).
  split; reflexivity.
Qed.

End Properties.

(** * Examples

    Each theorem above that has premises, applied to the sample data. *)

Lemma updatePointCloud_unprojects_witness :
  (0 <= 1 < getHeight (depthImg Sample.drained))
  /\ (0 <= 0 < getWidth (depthImg Sample.drained))
  /\ (getHeight (depthImg Sample.drained) * getWidth (depthImg Sample.drained)
      <= Int.max_int)
  /\ pix_data (getPixels (depthImg Sample.drained))
       !! Z.to_nat (1 * getWidth (depthImg Sample.drained) + 0) = Some F32.zero
  /\ exists v : vec3,
       vertices (pointcloud (updatePointCloud Sample.drained)) !! 2%nat = Some v
       /\ vec3_eqb v vec3_default = true.
Proof.
  assert (H1 : 0 <= 1 < getHeight (depthImg Sample.drained))
    by (change (0 <= 1 < 2); lia).
  assert (H2 : 0 <= 0 < getWidth (depthImg Sample.drained))
    by (change (0 <= 0 < 2); lia).
  assert (H3 : getHeight (depthImg Sample.drained) * getWidth (depthImg Sample.drained)
               <= Int.max_int)
    by (change (2 * 2 <= 2147483647); lia).
  assert (H4 : pix_data (getPixels (depthImg Sample.drained))
                 !! Z.to_nat (1 * getWidth (depthImg Sample.drained) + 0)
               = Some F32.zero) by reflexivity.
  split; [exact H1|]. split; [exact H2|]. split; [exact H3|]. split; [exact H4|].
  destruct (updatePointCloud_unprojects Sample.drained 1 0 F32.zero H1 H2 H3 H4)
    as (v & Hv & _ & Hzero).
  exists v. split; [exact Hv|]. apply Hzero; reflexivity.
Defined.

Lemma updatePointCloud_vertex_count_witness :
  (0 <= getHeight (depthImg Sample.resized) * getWidth (depthImg Sample.resized)
   <= Int.max_int)
  /\ length (vertices (pointcloud Sample.resized)) = 4%nat
  /\ length (vertices (pointcloud (updatePointCloud Sample.resized))) = 3%nat
  /\ length (vbo_vertices (vbo (updatePointCloud Sample.resized))) = 3%nat.
Proof.
  assert (H1 : 0 <= getHeight (depthImg Sample.resized)
                    * getWidth (depthImg Sample.resized) <= Int.max_int)
    by (change (0 <= 1 * 3 <= 2147483647); lia).
  split; [exact H1|]. split; [reflexivity|].
  destruct (updatePointCloud_vertex_count Sample.resized H1) as (_ & Hlen & Hvbo).
  rewrite Hvbo. split; exact Hlen.
Defined.

Lemma intrinsics_captured_once_witness :
  _depthDirty (Sample.fresh []) = false
  /\ mat4_eqb (_depthProjectionMatrix (Sample.fresh [])) mat4_identity = true
  /\ Forall (fun c : Call unit => delivers_depth c = false)
       [CallUpdate; OnNewFrame (Sample.frame_of T_AccelerometerEvent Sample.no_depth)]
  /\ carries_depth (Sample.frame_of T_DepthFrame Sample.depthA) = true
  /\ mat4_eqb (make_mat4 (glProjectionMatrix Sample.depthA)) mat4_identity = false
  /\ _depthIntrinsics
       (run [OnNewFrame (Sample.frame_of T_DepthFrame Sample.depthB); CallUpdate;
             OnNewFrame (Sample.frame_of (T_Other 99) Sample.depthB)]
          (run ([CallUpdate;
                 OnNewFrame (Sample.frame_of T_AccelerometerEvent Sample.no_depth)]
                ++ [OnNewFrame (Sample.frame_of T_DepthFrame Sample.depthA)])
             (Sample.fresh [])))
     = Sample.K.
Proof.
  assert (H1 : _depthDirty (Sample.fresh []) = false) by reflexivity.
  assert (H2 : mat4_eqb (_depthProjectionMatrix (Sample.fresh [])) mat4_identity = true)
    by reflexivity.
  assert (H3 : Forall (fun c : Call unit => delivers_depth c = false)
                 [CallUpdate;
                  OnNewFrame (Sample.frame_of T_AccelerometerEvent Sample.no_depth)])
    by (repeat constructor).
  assert (H4 : carries_depth (Sample.frame_of T_DepthFrame Sample.depthA) = true)
    by reflexivity.
  assert (H5 : mat4_eqb (make_mat4 (glProjectionMatrix Sample.depthA)) mat4_identity
               = false) by reflexivity.
  split; [exact H1|]. split; [exact H2|]. split; [exact H3|].
  split; [exact H4|]. split; [exact H5|].
  exact (proj1 (proj2 (proj2
    (intrinsics_captured_once
       [CallUpdate; OnNewFrame (Sample.frame_of T_AccelerometerEvent Sample.no_depth)]
       [OnNewFrame (Sample.frame_of T_DepthFrame Sample.depthB); CallUpdate;
        OnNewFrame (Sample.frame_of (T_Other 99) Sample.depthB)]
       (Sample.frame_of T_DepthFrame Sample.depthA) (Sample.fresh [])
       H1 H2 H3 H4 H5)))).
Defined.

Lemma latest_depth_frame_wins_witness :
  carries_depth (Sample.frame_of T_DepthFrame Sample.depthA) = true
  /\ carries_depth (Sample.frame_of T_SynchronizedFrames Sample.depthB) = true
  /\ depth_frame_ok Sample.depthB
  /\ depthImg (update (handleNewFrame (Sample.frame_of T_SynchronizedFrames Sample.depthB)
                 (handleNewFrame (Sample.frame_of T_DepthFrame Sample.depthA)
                    (Sample.fresh []))))
     = depth_image_of Sample.depthB
  /\ length (vertices (pointcloud
       (update (handleNewFrame (Sample.frame_of T_SynchronizedFrames Sample.depthB)
                 (handleNewFrame (Sample.frame_of T_DepthFrame Sample.depthA)
                    (Sample.fresh [])))))) = 3%nat
  /\ exists x y : float32,
       vertices (pointcloud
         (update (handleNewFrame (Sample.frame_of T_SynchronizedFrames Sample.depthB)
                   (handleNewFrame (Sample.frame_of T_DepthFrame Sample.depthA)
                      (Sample.fresh [])))))
         !! Z.to_nat (0 * depth_width Sample.depthB + 2)
       = Some (mkVec3 x y (F32.of_int 9)).
Proof.
  assert (H1 : carries_depth (Sample.frame_of T_DepthFrame Sample.depthA) = true)
    by reflexivity.
  assert (H2 : carries_depth (Sample.frame_of T_SynchronizedFrames Sample.depthB) = true)
    by reflexivity.
  assert (H3 : depth_frame_ok Sample.depthB).
  { unfold depth_frame_ok, Int.max_int. simpl. repeat split; lia. }
  split; [exact H1|]. split; [exact H2|]. split; [exact H3|].
  destruct (latest_depth_frame_wins
              (Sample.frame_of T_DepthFrame Sample.depthA)
              (Sample.frame_of T_SynchronizedFrames Sample.depthB)
              (Sample.fresh []) H1 H2) as (_ & _ & Himg & _ & _ & Hcloud).
  split; [exact Himg|].
  destruct (Hcloud H3) as [Hlen Hvert].
  split; [exact Hlen|].
  eexists. eexists. apply (Hvert 0 2 (F32.of_int 9)).
  - simpl. lia.
  - simpl. lia.
  - reflexivity.
Defined.

Lemma failed_start_retries_on_ready_witness :
  fst (startStreaming (_captureSession (Sample.fresh [false; true]))) = false
  /\ _streamOnReady (Sample.fresh [false; true]) = false
  /\ fst (start (Sample.fresh [false; true])) = false
  /\ _streamOnReady (snd (start (Sample.fresh [false; true]))) = true
  /\ handleSessionEvent Ready (snd (start (Sample.fresh [false; true])))
     = snd (start (snd (start (Sample.fresh [false; true])))).
Proof.
  assert (H1 : fst (startStreaming (_captureSession (Sample.fresh [false; true])))
               = false) by reflexivity.
  assert (H2 : _streamOnReady (Sample.fresh [false; true]) = false) by reflexivity.
  destruct (failed_start_retries_on_ready (Sample.fresh [false; true]) H1 H2)
    as (Hres & Hflag & Hready & _).
  split; [exact H1|]. split; [exact H2|].
  split; [exact Hres|]. split; [exact Hflag|exact Hready].
Defined.

Lemma update_is_frame_new_witness :
  _depthDirty (Sample.fresh []) = false
  /\ _irDirty (Sample.fresh []) = false
  /\ _visibleDirty (Sample.fresh []) = false
  /\ depthImg (update (Sample.fresh [])) = depthImg (Sample.fresh [])
  /\ pointcloud (update (Sample.fresh [])) = pointcloud (Sample.fresh [])
  /\ _isFrameNew (update (Sample.fresh [])) = false.
Proof.
  assert (H1 : _depthDirty (Sample.fresh []) = false) by reflexivity.
  assert (H2 : _irDirty (Sample.fresh []) = false) by reflexivity.
  assert (H3 : _visibleDirty (Sample.fresh []) = false) by reflexivity.
  destruct (proj2 (update_is_frame_new (Sample.fresh [])) H1 H2 H3)
    as (Hd & _ & _ & Hp & _ & Hnew).
  split; [exact H1|]. split; [exact H2|]. split; [exact H3|].
  split; [exact Hd|]. split; [exact Hp|exact Hnew].
Defined.

Lemma synchronized_frames_by_modality_witness :
  type (Sample.frame_of T_SynchronizedFrames Sample.depthA) = T_SynchronizedFrames
  /\ depth_isValid (depthFrame (Sample.frame_of T_SynchronizedFrames Sample.depthA)) = true
  /\ visible_isValid (visibleFrame (Sample.frame_of T_SynchronizedFrames Sample.depthA))
     = false
  /\ ir_isValid (infraredFrame (Sample.frame_of T_SynchronizedFrames Sample.depthA))
     = false
  /\ _depthFrame (handleNewFrame (Sample.frame_of T_SynchronizedFrames Sample.depthA)
                    (Sample.fresh [])) = Sample.depthA
  /\ _irDirty (handleNewFrame (Sample.frame_of T_SynchronizedFrames Sample.depthA)
                 (Sample.fresh [])) = false.
Proof.
  assert (H1 : type (Sample.frame_of T_SynchronizedFrames Sample.depthA)
               = T_SynchronizedFrames) by reflexivity.
  assert (H2 : depth_isValid
                 (depthFrame (Sample.frame_of T_SynchronizedFrames Sample.depthA))
               = true) by reflexivity.
  assert (H3 : visible_isValid
                 (visibleFrame (Sample.frame_of T_SynchronizedFrames Sample.depthA))
               = false) by reflexivity.
  assert (H4 : ir_isValid
                 (infraredFrame (Sample.frame_of T_SynchronizedFrames Sample.depthA))
               = false) by reflexivity.
  destruct (proj2 (synchronized_frames_by_modality
                     (Sample.frame_of T_SynchronizedFrames Sample.depthA)
                     (Sample.fresh []) H1) H2 H3 H4)
    as (Hslot & _ & _ & Hir & _).
  split; [exact H1|]. split; [exact H2|]. split; [exact H3|]. split; [exact H4|].
  split; [exact Hslot|exact Hir].
Defined.

Lemma unrecognized_frame_no_change_witness :
  _depthDirty (Sample.fresh []) = false
  /\ recognized (type (Sample.frame_of (T_Other 7) Sample.depthB)) = false
  /\ handleNewFrame (Sample.frame_of (T_Other 7) Sample.depthB)
       (run [OnNewFrame (Sample.frame_of T_DepthFrame Sample.depthI) : Call unit]
          (Sample.fresh []))
     = run [OnNewFrame (Sample.frame_of T_DepthFrame Sample.depthI) : Call unit]
         (Sample.fresh []).
Proof.
  assert (H1 : _depthDirty (Sample.fresh []) = false) by reflexivity.
  assert (H2 : recognized (type (Sample.frame_of (T_Other 7) Sample.depthB)) = false)
    by reflexivity.
  split; [exact H1|]. split; [exact H2|].
  exact (unrecognized_frame_no_change
           [OnNewFrame (Sample.frame_of T_DepthFrame Sample.depthI) : Call unit]
           (Sample.frame_of (T_Other 7) Sample.depthB) (Sample.fresh []) H1 H2).
Defined.

Lemma successful_start_keeps_flag_witness :
  fst (startStreaming
         (_captureSession (snd (start (Sample.fresh [false; true; true]))))) = true
  /\ _streamOnReady (snd (start (Sample.fresh [false; true; true]))) = true
  /\ fst (start (snd (start (Sample.fresh [false; true; true])))) = true
  /\ _streamOnReady (snd (start (snd (start (Sample.fresh [false; true; true])))))
     = _streamOnReady (snd (start (Sample.fresh [false; true; true]))).
Proof.
  assert (H1 : fst (startStreaming
                      (_captureSession (snd (start (Sample.fresh [false; true; true])))))
               = true) by reflexivity.
  assert (H2 : _streamOnReady (snd (start (Sample.fresh [false; true; true]))) = true)
    by reflexivity.
  destruct (successful_start_keeps_flag
              (snd (start (Sample.fresh [false; true; true]))) H1)
    as (Hres & Hflag & _).
  split; [exact H1|]. split; [exact H2|].
  split; [exact Hres|exact Hflag].
Defined.

(** ** The model at work *)

(** The pixel in row 0, column 1 of [depthA] is 2 mm deep; with focal
    lengths 2 and 4 and the principal point at (0.5, 0.5) its vertex is
    (0.5, -0.25, 2). *)
Example drained_vertex_1 :
  vertices (pointcloud Sample.drained) !! 1%nat
  = Some (mkVec3 (S754_finite false 8388608 (-24))
                 (S754_finite true 8388608 (-25))
                 (S754_finite false 8388608 (-22))).
Proof. vm_compute. reflexivity. Qed.

(** A zero depth left of and above the principal point gives negative
    zeros, which compare equal to zero. *)
Example zero_depth_negative_zero :
  unproject Sample.K 0 0 F32.zero
  = mkVec3 (S754_zero true) (S754_zero true) (S754_zero false).
Proof. vm_compute. reflexivity. Qed.

(** With a focal length of zero the quotient is not a number, whatever the
    depth: the premise on the focal lengths cannot be dropped. *)
Example zero_depth_zero_focal :
  v3x (unproject (mkIntrinsics F32.zero F32.one Sample.half Sample.half) 0 0 F32.zero)
  = S754_nan.
Proof. vm_compute. reflexivity. Qed.

(** The second start attempt reaches the capture session: one failed
    [start], then [Ready]. *)
Example ready_calls_session_twice :
  calls (_captureSession
           (handleSessionEvent Ready (snd (start (Sample.fresh [false; true])))))
  = [DidStartStreaming; DidStartStreaming]
  /\ _isStreaming (handleSessionEvent Ready (snd (start (Sample.fresh [false; true]))))
     = true.
Proof. vm_compute. split; reflexivity. Qed.

(** A depth frame whose projection matrix is the identity leaves the guard
    of the capture open: the next depth frame is captured again. *)
Example identity_matrix_recaptured :
  _depthIntrinsics
    (handleNewFrame (Sample.frame_of T_DepthFrame Sample.depthA)
       (handleNewFrame (Sample.frame_of T_DepthFrame Sample.depthI) (Sample.fresh [])))
  = Sample.K.
Proof. vm_compute. reflexivity. Qed.

(** Monitoring is brought up, and still [setup] has no value to return. *)
Example setup_success_unreported :
  fst (startMonitoring tt (_captureSession (Sample.fresh [true]))) = true
  /\ fst (setup tt (Sample.fresh [true])) = None.
Proof. vm_compute. split; reflexivity. Qed.

(** * Further properties *)

Section MoreProperties.

Context {Settings Session : Type} `{CaptureSession Settings Session}.

Implicit Types (s : State Session) (f : Frame) (c : Call Settings).

(** ** Groups of member variables *)

Lemma same_session_trans s1 s2 s3 :
  same_session s1 s2 -> same_session s2 s3 -> same_session s1 s3.
Proof.
  intros (A1 & A2 & A3) (B1 & B2 & B3). unfold same_session.
  rewrite B1, B2, B3. auto.
Qed.

Lemma same_slots_trans s1 s2 s3 :
  same_slots s1 s2 -> same_slots s2 s3 -> same_slots s1 s3.
Proof.
  intros (A1 & A2 & A3 & A4 & A5 & A6 & A7) (B1 & B2 & B3 & B4 & B5 & B6 & B7).
  unfold same_slots. rewrite B1, B2, B3, B4, B5, B6, B7. repeat split; assumption.
Qed.

(** ** The three blocks of [update] *)

Lemma drain_depth_keeps s :
  same_session s (drain_depth s) /\ same_slots s (drain_depth s) /\
  _irDirty (drain_depth s) = _irDirty s /\
  _visibleDirty (drain_depth s) = _visibleDirty s /\
  irImg (drain_depth s) = irImg s /\ visibleImg (drain_depth s) = visibleImg s.
Proof.
  unfold drain_depth, same_session, same_slots.
  destruct (_depthDirty s); repeat split.
Qed.

Lemma drain_ir_keeps s :
  same_session s (drain_ir s) /\ same_slots s (drain_ir s) /\
  _irDirty (drain_ir s) = false /\
  _visibleDirty (drain_ir s) = _visibleDirty s /\
  irImg (drain_ir s) = (if _irDirty s then ir_image_of (_irFrame s) else irImg s) /\
  visibleImg (drain_ir s) = visibleImg s /\ vbo (drain_ir s) = vbo s.
Proof.
  unfold drain_ir, same_session, same_slots.
  destruct (_irDirty s) eqn:Hd; repeat split; exact Hd.
Qed.

Lemma drain_visible_keeps s :
  same_session s (drain_visible s) /\ same_slots s (drain_visible s) /\
  _irDirty (drain_visible s) = _irDirty s /\
  _visibleDirty (drain_visible s) = false /\
  irImg (drain_visible s) = irImg s /\
  visibleImg (drain_visible s) =
    (if _visibleDirty s then visible_image_of (_visibleFrame s) else visibleImg s) /\
  vbo (drain_visible s) = vbo s.
Proof.
  unfold drain_visible, same_session, same_slots.
  destruct (_visibleDirty s) eqn:Hd; repeat split; exact Hd.
Qed.

Lemma update_flags s :
  _depthDirty (update s) = false /\ _irDirty (update s) = false /\
  _visibleDirty (update s) = false.
Proof.
  split; [apply update_calibration|]. rewrite update_blocks.
  set (s0 := set_isFrameNew (_depthDirty s || _irDirty s || _visibleDirty s) s).
  destruct (drain_visible_keeps (drain_ir (drain_depth s0)))
    as (_ & _ & -> & -> & _).
  destruct (drain_ir_keeps (drain_depth s0)) as (_ & _ & -> & _).
  split; reflexivity.
Qed.

Lemma update_ir_visible s :
  irImg (update s) = (if _irDirty s then ir_image_of (_irFrame s) else irImg s) /\
  visibleImg (update s) =
    (if _visibleDirty s then visible_image_of (_visibleFrame s) else visibleImg s).
Proof.
  rewrite update_blocks.
  set (s0 := set_isFrameNew (_depthDirty s || _irDirty s || _visibleDirty s) s).
  destruct (drain_visible_keeps (drain_ir (drain_depth s0)))
    as (_ & _ & _ & _ & -> & -> & _).
  destruct (drain_ir_keeps (drain_depth s0))
    as (_ & (_ & _ & Hvf & _) & _ & Hvd & -> & -> & _).
  destruct (drain_depth_keeps s0)
    as (_ & (_ & Hirf & Hvf' & _) & Hird & Hvd' & -> & ->).
  rewrite Hvd, Hvd', Hvf, Hvf', Hird, Hirf. split; reflexivity.
Qed.

(** X1.  [update] reads the frame slots and never writes them: the three
    slots, the motion registers, the stored calibration, the capture
    session and the two streaming flags are the same after it. *)
Theorem update_leaves_inputs_alone s :
  same_session s (update s) /\ same_slots s (update s).
Proof.
  rewrite update_blocks.
  set (s0 := set_isFrameNew (_depthDirty s || _irDirty s || _visibleDirty s) s).
  destruct (drain_depth_keeps s0) as (A1 & A2 & _).
  destruct (drain_ir_keeps (drain_depth s0)) as (B1 & B2 & _).
  destruct (drain_visible_keeps (drain_ir (drain_depth s0))) as (C1 & C2 & _).
  assert (S0 : same_session s s0) by (repeat split).
  assert (L0 : same_slots s s0) by (repeat split).
  split.
  - eapply same_session_trans; [|exact C1].
    eapply same_session_trans; [|exact B1].
    eapply same_session_trans; [exact S0|exact A1].
  - eapply same_slots_trans; [|exact C2].
    eapply same_slots_trans; [|exact B2].
    eapply same_slots_trans; [exact L0|exact A2].
Qed.

(** X2.  After [update] no dirty flag is set, so a second [update] right
    after it reports no new frame and changes nothing else. *)
Theorem update_twice s :
  _depthDirty (update s) = false /\ _irDirty (update s) = false /\
  _visibleDirty (update s) = false /\
  update (update s) = set_isFrameNew false (update s).
Proof.
  destruct (update_flags s) as (Hd & Hi & Hv).
  repeat (split; [assumption|]). now apply update_no_frames.
Qed.

(** ** Delivery of frames, all modalities *)

Lemma dispatch_ir_visible f s :
  _irFrame (dispatch_frame f s) =
    (if carries_ir f then infraredFrame f else _irFrame s) /\
  _irDirty (dispatch_frame f s) = carries_ir f || _irDirty s /\
  _visibleFrame (dispatch_frame f s) =
    (if carries_visible f then visibleFrame f else _visibleFrame s) /\
  _visibleDirty (dispatch_frame f s) = carries_visible f || _visibleDirty s.
Proof.
  unfold dispatch_frame, carries_ir, carries_visible,
    store_depth, store_visible, store_ir.
  destruct (type f); try (repeat split; fail).
  destruct (depth_isValid (depthFrame f)), (visible_isValid (visibleFrame f)),
    (ir_isValid (infraredFrame f)); repeat split.
Qed.

Lemma handleNewFrame_ir_visible f s :
  _irFrame (handleNewFrame f s) =
    (if carries_ir f then infraredFrame f else _irFrame s) /\
  _irDirty (handleNewFrame f s) = carries_ir f || _irDirty s /\
  _visibleFrame (handleNewFrame f s) =
    (if carries_visible f then visibleFrame f else _visibleFrame s) /\
  _visibleDirty (handleNewFrame f s) = carries_visible f || _visibleDirty s.
Proof.
  unfold handleNewFrame.
  destruct (capture_calibration_slots (dispatch_frame f s))
    as (_ & _ & -> & -> & -> & ->).
  apply dispatch_ir_visible.
Qed.

Lemma dispatch_keeps f s :
  same_session s (dispatch_frame f s) /\ same_outputs s (dispatch_frame f s).
Proof.
  unfold dispatch_frame, same_session, same_outputs,
    store_depth, store_visible, store_ir.
  destruct (type f); try (repeat split; fail).
  destruct (depth_isValid (depthFrame f)), (visible_isValid (visibleFrame f)),
    (ir_isValid (infraredFrame f)); repeat split.
Qed.

Lemma capture_calibration_keeps s :
  same_session s (capture_calibration s) /\ same_outputs s (capture_calibration s) /\
  _accelerometerEvent (capture_calibration s) = _accelerometerEvent s /\
  _gyroscopeEvent (capture_calibration s) = _gyroscopeEvent s.
Proof.
  unfold capture_calibration, same_session, same_outputs.
  destruct (_depthDirty s && mat4_eqb (_depthProjectionMatrix s) mat4_identity);
    repeat split.
Qed.

(** X3.  [handleNewFrame] only fills the buffer: it leaves the capture
    session, the streaming flags, the three images, the point cloud, the
    GPU buffer and the is-new-frame signal as they are, and it never takes
    a dirty flag down. *)
Theorem handleNewFrame_only_fills_buffer f s :
  same_session s (handleNewFrame f s) /\ same_outputs s (handleNewFrame f s) /\
  (_depthDirty s = true -> _depthDirty (handleNewFrame f s) = true) /\
  (_irDirty s = true -> _irDirty (handleNewFrame f s) = true) /\
  (_visibleDirty s = true -> _visibleDirty (handleNewFrame f s) = true).
Proof.
  destruct (handleNewFrame_depth f s) as (_ & Hd).
  destruct (handleNewFrame_ir_visible f s) as (_ & Hi & _ & Hv).
  unfold handleNewFrame in *.
  destruct (dispatch_keeps f s) as ((A1 & A2 & A3) & (B1 & B2 & B3 & B4 & B5 & B6)).
  destruct (capture_calibration_keeps (dispatch_frame f s))
    as ((C1 & C2 & C3) & (D1 & D2 & D3 & D4 & D5 & D6) & _).
  split; [unfold same_session; rewrite C1, C2, C3; auto|].
  split; [unfold same_outputs; rewrite D1, D2, D3, D4, D5, D6; repeat split; assumption|].
  rewrite Hd, Hi, Hv. repeat split; intros ->; apply orb_true_r.
Qed.

(** X4.  The [update] that follows a delivery reports a new frame exactly
    when the frame carried an image of some modality or a frame was pending
    already; motion events and frames of unknown kind do not count. *)
Theorem delivered_frame_is_reported f s :
  _isFrameNew (update (handleNewFrame f s)) =
    (carries_depth f || _depthDirty s) || (carries_ir f || _irDirty s)
    || (carries_visible f || _visibleDirty s).
Proof.
  destruct (update_calibration (handleNewFrame f s)) as (_ & _ & _ & _ & _ & ->).
  destruct (handleNewFrame_depth f s) as (_ & ->).
  destruct (handleNewFrame_ir_visible f s) as (_ & -> & _ & ->).
  reflexivity.
Qed.

(** X5.  Latest wins for the infrared modality: of two deliveries before an
    [update], the later infrared payload is the one in the slot, and the
    infrared image after the [update] is built from it alone, with one
    channel; the infrared dirty flag is cleared. *)
Theorem latest_ir_frame_wins f1 f2 s :
  carries_ir f2 = true ->
  _irFrame (handleNewFrame f2 (handleNewFrame f1 s)) = infraredFrame f2 /\
  irImg (update (handleNewFrame f2 (handleNewFrame f1 s)))
    = ir_image_of (infraredFrame f2) /\
  pix_channels (getPixels (irImg (update (handleNewFrame f2 (handleNewFrame f1 s)))))
    = 1 /\
  _irDirty (update (handleNewFrame f2 (handleNewFrame f1 s))) = false.
Proof.
  intros Hf2.
  destruct (handleNewFrame_ir_visible f2 (handleNewFrame f1 s)) as (Hslot & Hdirty & _).
  rewrite Hf2 in Hslot, Hdirty. simpl in Hdirty.
  destruct (update_ir_visible (handleNewFrame f2 (handleNewFrame f1 s))) as (Himg & _).
  rewrite Hdirty, Hslot in Himg.
  split; [exact Hslot|]. split; [exact Himg|].
  split; [rewrite Himg; reflexivity|apply update_flags].
Qed.

(** X6.  Latest wins for the visible modality: the colour image after the
    [update] is built from the later payload alone, with three channels;
    the visible dirty flag is cleared. *)
Theorem latest_visible_frame_wins f1 f2 s :
  carries_visible f2 = true ->
  _visibleFrame (handleNewFrame f2 (handleNewFrame f1 s)) = visibleFrame f2 /\
  visibleImg (update (handleNewFrame f2 (handleNewFrame f1 s)))
    = visible_image_of (visibleFrame f2) /\
  pix_channels (getPixels (visibleImg (update (handleNewFrame f2 (handleNewFrame f1 s)))))
    = 3 /\
  _visibleDirty (update (handleNewFrame f2 (handleNewFrame f1 s))) = false.
Proof.
  intros Hf2.
  destruct (handleNewFrame_ir_visible f2 (handleNewFrame f1 s))
    as (_ & _ & Hslot & Hdirty).
  rewrite Hf2 in Hslot, Hdirty. simpl in Hdirty.
  destruct (update_ir_visible (handleNewFrame f2 (handleNewFrame f1 s))) as (_ & Himg).
  rewrite Hdirty, Hslot in Himg.
  split; [exact Hslot|]. split; [exact Himg|].
  split; [rewrite Himg; reflexivity|apply update_flags].
Qed.

(** X7.  A motion event overwrites its register and nothing else: in every
    state that the object reaches from one with no depth frame pending, an
    accelerometer event changes the accelerometer register only, and a
    gyroscope event the gyroscope register only. *)
Theorem motion_event_only_register (calls : list (Call Settings)) f s :
  _depthDirty s = false ->
  (type f = T_AccelerometerEvent ->
   handleNewFrame f (run calls s)
     = set_accelerometerEvent (accelerometerEvent f) (run calls s)) /\
  (type f = T_GyroscopeEvent ->
   handleNewFrame f (run calls s)
     = set_gyroscopeEvent (gyroscopeEvent f) (run calls s)).
Proof.
  intros Hd.
  assert (Hc : capture_consistent (run calls s))
    by (apply run_consistent, capture_consistent_clean, Hd).
  split; intros Hty; unfold handleNewFrame, dispatch_frame; rewrite Hty;
    apply capture_calibration_idle; exact Hc.
Qed.

(** X8.  While the stored projection matrix compares equal to the
    identity, every frame that carries a depth image sets the stored matrix
    and the intrinsics to those of that frame, whether or not a calibration
    was taken before. *)
Theorem identity_matrix_keeps_capturing f s :
  mat4_eqb (_depthProjectionMatrix s) mat4_identity = true ->
  carries_depth f = true ->
  _depthProjectionMatrix (handleNewFrame f s)
    = make_mat4 (glProjectionMatrix (depthFrame f)) /\
  _depthIntrinsics (handleNewFrame f s) = intrinsics (depthFrame f).
Proof.
  intros Hm Hf. unfold handleNewFrame.
  destruct (dispatch_depth f s) as [Hslot Hdirty].
  destruct (dispatch_calibration f s) as [HM _].
  rewrite Hf in Hslot, Hdirty. simpl in Hdirty.
  destruct (capture_calibration_fires (dispatch_frame f s)) as [HMc HKc];
    [exact Hdirty|now rewrite HM|].
  now rewrite HMc, HKc, Hslot.
Qed.

(** ** Control calls *)

Lemma start_keeps s :
  same_slots s (snd (start s)) /\ same_flags s (snd (start s)) /\
  same_outputs s (snd (start s)).
Proof.
  unfold start. destruct (startStreaming (_captureSession s)) as [ok cs].
  cbv zeta.
  destruct (negb (_isStreaming (set_isStreaming ok (set_captureSession cs s)))
            && negb (_streamOnReady (set_isStreaming ok (set_captureSession cs s))));
    repeat split.
Qed.

(** X9.  [setup], [start], [stop] and the session events leave the frame
    buffer and the drained data alone: slots, motion registers, calibration,
    dirty flags, images, point cloud, GPU buffer and the is-new-frame signal
    are the same after the call.  In particular a pending frame stays
    pending across them. *)
Theorem control_calls_leave_frames_alone c s :
  is_control c = true ->
  same_slots s (step s c) /\ same_flags s (step s c) /\ same_outputs s (step s c).
Proof.
  intros Hc. destruct c as [settings| | | |f|evt]; simpl in *; try discriminate.
  - unfold setup. destruct (startMonitoring settings (_captureSession s)).
    repeat split.
  - apply start_keeps.
  - repeat split.
  - destruct evt; simpl; try (repeat split; fail).
    destruct (_streamOnReady s); [apply start_keeps|repeat split].
Qed.

(** X10.  [stop] cancels a deferred start: after it both streaming flags
    are false, a [Ready] event changes nothing, and no session event makes
    the object call the capture session again. *)
Theorem stop_cancels_deferred_start s :
  _isStreaming (stop s) = false /\ _streamOnReady (stop s) = false /\
  handleSessionEvent Ready (stop s) = stop s /\
  (forall evt, _captureSession (handleSessionEvent evt (stop s))
               = stopStreaming (_captureSession s)).
Proof.
  split; [reflexivity|]. split; [reflexivity|]. split; [reflexivity|].
  intros evt. destruct evt; reflexivity.
Qed.

Lemma session_event_not_ready evt s :
  evt <> Ready ->
  _captureSession (handleSessionEvent evt s) = _captureSession s /\
  _streamOnReady (handleSessionEvent evt s) = _streamOnReady s.
Proof. intros Hne. destruct evt; try congruence; split; reflexivity. Qed.

(** X11.  Without a [Ready] event the object never starts streaming by
    itself: over any sequence of session events that holds no [Ready], the
    capture session is not called and the deferred-start flag keeps its
    value; a [Disconnected] event in it clears the streaming flag and arms
    no retry. *)
Theorem no_ready_no_restart (evts : list EventType) s :
  Forall (fun evt => evt <> Ready) evts ->
  _captureSession (run (map OnSessionEvent evts : list (Call Settings)) s)
    = _captureSession s /\
  _streamOnReady (run (map OnSessionEvent evts : list (Call Settings)) s)
    = _streamOnReady s /\
  (last evts = Some Disconnected ->
   _isStreaming (run (map OnSessionEvent evts : list (Call Settings)) s) = false).
Proof.
  intros Hall. revert s. induction Hall as [|evt evts Hne _ IH]; intros s.
  - repeat split. discriminate.
  - simpl. destruct (IH (handleSessionEvent evt s)) as (-> & -> & Hlast).
    destruct (session_event_not_ready evt s Hne) as (-> & ->).
    repeat split. intros Hl. destruct evts as [|evt' evts'].
    + simpl in Hl. injection Hl as ->. reflexivity.
    + apply Hlast. exact Hl.
Qed.

(** ** The rebuild as a whole *)

(** The vertices after the loops, in closed form. *)
Lemma rows_loop_closed rows cols depths K verts :
  0 <= rows -> 0 <= cols -> rows * cols <= Int.max_int ->
  length verts = Z.to_nat (rows * cols) ->
  rows_loop rows cols depths K verts
    = vertex_of_pixel cols depths K <$> seqZ 0 (rows * cols).
Proof.
  intros Hrows Hcols Hmax Hlen. apply list_eq. intros j.
  rewrite list_lookup_fmap.
  destruct (decide (Z.of_nat j < rows * cols)) as [Hj|Hj].
  - rewrite rows_loop_lookup by assumption.
    rewrite lookup_seqZ_lt by assumption. reflexivity.
  - rewrite lookup_seqZ_ge by lia.
    apply lookup_ge_None. rewrite length_rows_loop, Hlen. lia.
Qed.

Lemma updatePointCloud_closed s :
  0 <= getHeight (depthImg s) -> 0 <= getWidth (depthImg s) ->
  getHeight (depthImg s) * getWidth (depthImg s) <= Int.max_int ->
  vertices (pointcloud (updatePointCloud s))
    = vertex_of_pixel (getWidth (depthImg s)) (pix_data (getPixels (depthImg s)))
        (_depthIntrinsics s)
      <$> seqZ 0 (getHeight (depthImg s) * getWidth (depthImg s)).
Proof.
  intros Hh Hw Hmax. rewrite updatePointCloud_vertices.
  apply rows_loop_closed; try assumption.
  unfold vertices_resize, Int.mul. rewrite length_resize.
  rewrite wrap_in_range by nia. rewrite to_size_t_in_range by nia. reflexivity.
Qed.

Lemma updatePointCloud_vbo s :
  0 <= getHeight (depthImg s) * getWidth (depthImg s) <= Int.max_int ->
  vbo (updatePointCloud s)
    = mkVbo (vertices (pointcloud (updatePointCloud s))) GL_STATIC_DRAW.
Proof.
  intros Hsize.
  change (vbo (updatePointCloud s)) with
    (mkVbo (take (Z.to_nat (Int.to_size_t
               (Int.mul (getHeight (depthImg s)) (getWidth (depthImg s)))))
            (vertices (pointcloud (updatePointCloud s)))) GL_STATIC_DRAW).
  f_equal. apply take_ge. rewrite updatePointCloud_length by assumption.
  unfold Int.mul. rewrite wrap_in_range by lia. rewrite to_size_t_in_range by lia. lia.
Qed.

(** X12.  The rebuild is wholesale: the point cloud and the GPU buffer it
    leaves depend on the depth image and the intrinsics only, not on the
    vertices or the buffer that were there before.  The image is one whose
    pixels an [int] can count. *)
Theorem rebuild_forgets_old_vertices s s' :
  depthImg s' = depthImg s -> _depthIntrinsics s' = _depthIntrinsics s ->
  0 <= getHeight (depthImg s) -> 0 <= getWidth (depthImg s) ->
  getHeight (depthImg s) * getWidth (depthImg s) <= Int.max_int ->
  pointcloud (updatePointCloud s') = pointcloud (updatePointCloud s) /\
  vbo (updatePointCloud s') = vbo (updatePointCloud s).
Proof.
  intros Himg HK Hh Hw Hmax.
  assert (Hv : vertices (pointcloud (updatePointCloud s'))
               = vertices (pointcloud (updatePointCloud s))).
  { rewrite (updatePointCloud_closed s) by assumption.
    rewrite (updatePointCloud_closed s') by (rewrite Himg; assumption).
    now rewrite Himg, HK. }
  split.
  - destruct (pointcloud (updatePointCloud s')), (pointcloud (updatePointCloud s)).
    simpl in Hv. now rewrite Hv.
  - rewrite (updatePointCloud_vbo s) by nia.
    rewrite (updatePointCloud_vbo s') by (rewrite Himg; nia).
    now rewrite Hv.
Qed.

(** X13.  Rebuilding twice is rebuilding once. *)
Theorem rebuild_idempotent s :
  0 <= getHeight (depthImg s) -> 0 <= getWidth (depthImg s) ->
  getHeight (depthImg s) * getWidth (depthImg s) <= Int.max_int ->
  updatePointCloud (updatePointCloud s) = updatePointCloud s.
Proof.
  intros Hh Hw Hmax.
  assert (Hv : vertices (pointcloud (updatePointCloud (updatePointCloud s)))
               = vertices (pointcloud (updatePointCloud s))).
  { rewrite (updatePointCloud_closed (updatePointCloud s)) by assumption.
    rewrite (updatePointCloud_closed s) by assumption. reflexivity. }
  assert (Hb : vbo (updatePointCloud (updatePointCloud s)) = vbo (updatePointCloud s)).
  { rewrite (updatePointCloud_vbo (updatePointCloud s))
      by (change (depthImg (updatePointCloud s)) with (depthImg s); nia).
    rewrite (updatePointCloud_vbo s) by nia. now rewrite Hv. }
  assert (Hp : pointcloud (updatePointCloud (updatePointCloud s))
               = pointcloud (updatePointCloud s)).
  { destruct (pointcloud (updatePointCloud (updatePointCloud s))),
      (pointcloud (updatePointCloud s)). simpl in Hv. now rewrite Hv. }
  change (updatePointCloud (updatePointCloud s)) with
    (set_vbo (vbo (updatePointCloud (updatePointCloud s)))
       (set_pointcloud (pointcloud (updatePointCloud (updatePointCloud s)))
          (updatePointCloud s))).
  rewrite Hb, Hp. destruct (updatePointCloud s). reflexivity.
Qed.

(** X14.  The depth image can be read back from the point cloud: the third
    coordinates of the vertices, in order, are the depth samples, bit for
    bit.  The image holds one sample per pixel and its pixels are ones an
    [int] can count. *)
Theorem cloud_depths_are_the_image s :
  0 <= getHeight (depthImg s) -> 0 <= getWidth (depthImg s) ->
  getHeight (depthImg s) * getWidth (depthImg s) <= Int.max_int ->
  length (pix_data (getPixels (depthImg s)))
    = Z.to_nat (getHeight (depthImg s) * getWidth (depthImg s)) ->
  v3z <$> vertices (pointcloud (updatePointCloud s))
    = pix_data (getPixels (depthImg s)).
Proof.
  intros Hh Hw Hmax Hlen. rewrite updatePointCloud_closed by assumption.
  apply list_eq. intros j. rewrite !list_lookup_fmap.
  destruct (decide (Z.of_nat j < getHeight (depthImg s) * getWidth (depthImg s)))
    as [Hj|Hj].
  - rewrite lookup_seqZ_lt by assumption. simpl.
    destruct (lookup_lt_is_Some_2 (pix_data (getPixels (depthImg s))) j) as [d Hd];
      [rewrite Hlen; lia|].
    rewrite Hd. f_equal. unfold vertex_of_pixel, unproject. simpl.
    rewrite Z.add_0_l. apply read_at_lookup; [lia|]. now rewrite Nat2Z.id.
  - rewrite lookup_seqZ_ge by lia. simpl. symmetry.
    apply lookup_ge_None. rewrite Hlen. lia.
Qed.

Lemma unproject_nan (K : Intrinsics) (r c : Z) :
  unproject K r c S754_nan = mkVec3 S754_nan S754_nan S754_nan.
Proof. reflexivity. Qed.

(** X15.  Invalid depth is not filtered: a pixel whose depth is not a
    number gets a vertex whose three coordinates are not numbers, whatever
    the intrinsics. *)
Theorem nan_depth_gives_nan_vertex s (r c : Z) :
  0 <= r < getHeight (depthImg s) -> 0 <= c < getWidth (depthImg s) ->
  getHeight (depthImg s) * getWidth (depthImg s) <= Int.max_int ->
  pix_data (getPixels (depthImg s)) !! Z.to_nat (r * getWidth (depthImg s) + c)
    = Some S754_nan ->
  vertices (pointcloud (updatePointCloud s))
    !! Z.to_nat (r * getWidth (depthImg s) + c)
  = Some (mkVec3 S754_nan S754_nan S754_nan).
Proof.
  intros Hr Hc Hmax Hd.
  rewrite (updatePointCloud_lookup s r c S754_nan) by assumption.
  now rewrite unproject_nan.
Qed.

End MoreProperties.

(** ** The list of connected devices *)

Lemma length_omap_le {A B : Type} (g : A -> option B) (l : list A) :
  (length (omap g l) <= length l)%nat.
Proof.
  induction l as [|x l IH]; csimpl; [lia|].
  destruct (g x); csimpl; lia.
Qed.

(** The loop after [n] rounds. *)
Lemma listDevices_loop (found : Enumeration) (bLog : bool) (n : nat) :
  fold_left (listDevices_body found bLog) (seqZ 0 (Z.of_nat n)) ([], [])
  = (serial <$> omap id (take n (sensors found)),
     if bLog then omap id (take n (sensors found)) else []).
Proof.
  induction n as [|n IH]; [destruct bLog; reflexivity|].
  rewrite seqZ_S, fold_left_app, IH. simpl. unfold listDevices_body.
  rewrite Z.add_0_l, Nat2Z.id. simpl.
  destruct (sensors found !! n) as [[info|]|] eqn:Hn.
  - rewrite (take_S_r _ _ _ Hn), omap_app, fmap_app. simpl.
    destruct bLog; reflexivity.
  - rewrite (take_S_r _ _ _ Hn), omap_app. simpl. rewrite app_nil_r.
    destruct bLog; reflexivity.
  - apply lookup_ge_None in Hn.
    rewrite (take_ge _ n), (take_ge _ (S n)) by lia.
    destruct bLog; reflexivity.
Qed.

Lemma listDevices_fold (found : Enumeration) (bLog : bool) :
  fold_left (listDevices_body found bLog) (seqZ 0 (count found)) ([], [])
  = (serial <$> omap id (take (Z.to_nat (count found)) (sensors found)),
     if bLog then omap id (take (Z.to_nat (count found)) (sensors found)) else []).
Proof.
  destruct (Z.le_gt_cases 0 (count found)) as [Hc|Hc].
  - rewrite <- (Z2Nat.id (count found)) at 1 by assumption.
    apply listDevices_loop.
  - rewrite seqZ_nil by lia. replace (Z.to_nat (count found)) with 0%nat by lia.
    destruct bLog; reflexivity.
Qed.

(** X16.  [listDevices] returns the serial numbers of the sensors in the
    first [count] slots that are not null, in slot order.  So it returns
    at most [count] serial numbers and at most one per slot, none when
    [count] is zero or negative, and the same list whether or not it
    logs. *)
Theorem listDevices_serials (found : Enumeration) (bLog : bool) :
  fst (listDevices found bLog)
    = serial <$> omap id (take (Z.to_nat (count found)) (sensors found))
  /\ (length (fst (listDevices found bLog)) <= Z.to_nat (count found))%nat
  /\ (length (fst (listDevices found bLog)) <= length (sensors found))%nat
  /\ (count found <= 0 -> fst (listDevices found bLog) = [])
  /\ fst (listDevices found bLog) = fst (listDevices found (negb bLog)).
Proof.
  assert (Hdev : forall b, fst (listDevices found b)
            = serial <$> omap id (take (Z.to_nat (count found)) (sensors found))).
  { intros b. unfold listDevices. cbv zeta. now rewrite listDevices_fold. }
  split; [apply Hdev|].
  assert (Hlen : (length (fst (listDevices found bLog))
                  <= length (take (Z.to_nat (count found)) (sensors found)))%nat).
  { rewrite Hdev, length_fmap. apply length_omap_le. }
  rewrite length_take in Hlen.
  split; [lia|]. split; [lia|]. split.
  - intros Hc. rewrite Hdev. replace (Z.to_nat (count found)) with 0%nat by lia.
    reflexivity.
  - now rewrite !Hdev.
Qed.

(** X17.  When [listDevices] logs, the number it logs is the number of
    serial numbers it returns, and the sensors it describes are the ones
    whose serial numbers it returns, in the same order; when it does not
    log, nothing is written. *)
Theorem listDevices_log (found : Enumeration) :
  snd (listDevices found false) = None /\
  exists described : list ConnectedSensorInfo,
    snd (listDevices found true)
      = Some (length (fst (listDevices found true)), described) /\
    serial <$> described = fst (listDevices found true).
Proof.
  split; [reflexivity|].
  exists (omap id (take (Z.to_nat (count found)) (sensors found))).
  unfold listDevices. cbv zeta. rewrite listDevices_fold. split; reflexivity.
Qed.

(** * More examples *)

Lemma handleNewFrame_only_fills_buffer_witness :
  _depthDirty (handleNewFrame (Sample.frame_of T_DepthFrame Sample.depthA)
                 (Sample.fresh [])) = true
  /\ _depthDirty
       (handleNewFrame Sample2.accel_frame
          (handleNewFrame (Sample.frame_of T_DepthFrame Sample.depthA)
             (Sample.fresh []))) = true.
Proof.
  assert (H1 : _depthDirty (handleNewFrame (Sample.frame_of T_DepthFrame Sample.depthA)
                              (Sample.fresh [])) = true) by reflexivity.
  split; [exact H1|].
  exact (proj1 (proj2 (proj2
    (handleNewFrame_only_fills_buffer Sample2.accel_frame
       (handleNewFrame (Sample.frame_of T_DepthFrame Sample.depthA)
          (Sample.fresh []))))) H1).
Defined.

Lemma latest_ir_frame_wins_witness :
  carries_ir (Sample2.frame_with T_SynchronizedFrames Sample.no_depth
                Sample.no_visible Sample2.irB) = true
  /\ irImg (update
       (handleNewFrame
          (Sample2.frame_with T_SynchronizedFrames Sample.no_depth
             Sample.no_visible Sample2.irB)
          (handleNewFrame
             (Sample2.frame_with T_InfraredFrame Sample.no_depth
                Sample.no_visible Sample2.irA)
             (Sample.fresh []))))
     = ir_image_of Sample2.irB.
Proof.
  assert (H1 : carries_ir (Sample2.frame_with T_SynchronizedFrames Sample.no_depth
                             Sample.no_visible Sample2.irB) = true) by reflexivity.
  split; [exact H1|].
  exact (proj1 (proj2
    (latest_ir_frame_wins
       (Sample2.frame_with T_InfraredFrame Sample.no_depth Sample.no_visible Sample2.irA)
       (Sample2.frame_with T_SynchronizedFrames Sample.no_depth
          Sample.no_visible Sample2.irB)
       (Sample.fresh []) H1))).
Defined.

Lemma latest_visible_frame_wins_witness :
  carries_visible (Sample2.frame_with T_VisibleFrame Sample.no_depth
                     Sample2.rgbB Sample.no_ir) = true
  /\ visibleImg (update
       (handleNewFrame
          (Sample2.frame_with T_VisibleFrame Sample.no_depth Sample2.rgbB Sample.no_ir)
          (handleNewFrame
             (Sample2.frame_with T_VisibleFrame Sample.no_depth Sample2.rgbA Sample.no_ir)
             (Sample.fresh []))))
     = visible_image_of Sample2.rgbB.
Proof.
  assert (H1 : carries_visible (Sample2.frame_with T_VisibleFrame Sample.no_depth
                                  Sample2.rgbB Sample.no_ir) = true) by reflexivity.
  split; [exact H1|].
  exact (proj1 (proj2
    (latest_visible_frame_wins
       (Sample2.frame_with T_VisibleFrame Sample.no_depth Sample2.rgbA Sample.no_ir)
       (Sample2.frame_with T_VisibleFrame Sample.no_depth Sample2.rgbB Sample.no_ir)
       (Sample.fresh []) H1))).
Defined.

Lemma motion_event_only_register_witness :
  _depthDirty (Sample.fresh []) = false
  /\ type Sample2.accel_frame = T_AccelerometerEvent
  /\ handleNewFrame Sample2.accel_frame
       (run [OnNewFrame (Sample.frame_of T_DepthFrame Sample.depthI) : Call unit]
          (Sample.fresh []))
     = set_accelerometerEvent (mkAccelerometerEvent Sample2.gravity)
         (run [OnNewFrame (Sample.frame_of T_DepthFrame Sample.depthI) : Call unit]
            (Sample.fresh [])).
Proof.
  assert (H1 : _depthDirty (Sample.fresh []) = false) by reflexivity.
  assert (H2 : type Sample2.accel_frame = T_AccelerometerEvent) by reflexivity.
  split; [exact H1|]. split; [exact H2|].
  exact (proj1 (motion_event_only_register
                  [OnNewFrame (Sample.frame_of T_DepthFrame Sample.depthI) : Call unit]
                  Sample2.accel_frame (Sample.fresh []) H1) H2).
Defined.

Lemma identity_matrix_keeps_capturing_witness :
  mat4_eqb (_depthProjectionMatrix
              (handleNewFrame (Sample.frame_of T_DepthFrame Sample.depthI)
                 (Sample.fresh []))) mat4_identity = true
  /\ carries_depth (Sample.frame_of T_DepthFrame Sample.depthA) = true
  /\ _depthIntrinsics
       (handleNewFrame (Sample.frame_of T_DepthFrame Sample.depthA)
          (handleNewFrame (Sample.frame_of T_DepthFrame Sample.depthI)
             (Sample.fresh [])))
     = intrinsics (depthFrame (Sample.frame_of T_DepthFrame Sample.depthA)).
Proof.
  assert (H1 : mat4_eqb (_depthProjectionMatrix
                           (handleNewFrame (Sample.frame_of T_DepthFrame Sample.depthI)
                              (Sample.fresh []))) mat4_identity = true)
    by reflexivity.
  assert (H2 : carries_depth (Sample.frame_of T_DepthFrame Sample.depthA) = true)
    by reflexivity.
  split; [exact H1|]. split; [exact H2|].
  exact (proj2 (identity_matrix_keeps_capturing
                  (Sample.frame_of T_DepthFrame Sample.depthA)
                  (handleNewFrame (Sample.frame_of T_DepthFrame Sample.depthI)
                     (Sample.fresh [])) H1 H2)).
Defined.

Lemma control_calls_leave_frames_alone_witness :
  is_control (CallStop : Call unit) = true
  /\ same_flags (handleNewFrame (Sample.frame_of T_DepthFrame Sample.depthA)
                   (Sample.fresh []))
       (step (handleNewFrame (Sample.frame_of T_DepthFrame Sample.depthA)
                (Sample.fresh [])) (CallStop : Call unit)).
Proof.
  assert (H1 : is_control (CallStop : Call unit) = true) by reflexivity.
  split; [exact H1|].
  exact (proj1 (proj2
    (control_calls_leave_frames_alone (CallStop : Call unit)
       (handleNewFrame (Sample.frame_of T_DepthFrame Sample.depthA)
          (Sample.fresh [])) H1))).
Defined.

Lemma no_ready_no_restart_witness :
  Forall (fun evt => evt <> Ready) [Connected; Streaming; Disconnected]
  /\ last [Connected; Streaming; Disconnected] = Some Disconnected
  /\ _streamOnReady
       (run (map OnSessionEvent [Connected; Streaming; Disconnected] : list (Call unit))
          (snd (start (Sample.fresh [false]))))
     = _streamOnReady (snd (start (Sample.fresh [false])))
  /\ _isStreaming
       (run (map OnSessionEvent [Connected; Streaming; Disconnected] : list (Call unit))
          (snd (start (Sample.fresh [false])))) = false.
Proof.
  assert (H1 : Forall (fun evt => evt <> Ready) [Connected; Streaming; Disconnected])
    by (repeat constructor; discriminate).
  assert (H2 : last [Connected; Streaming; Disconnected] = Some Disconnected)
    by reflexivity.
  split; [exact H1|]. split; [exact H2|].
  destruct (no_ready_no_restart (Settings := unit)
              [Connected; Streaming; Disconnected]
              (snd (start (Sample.fresh [false]))) H1) as (_ & Hflag & Hlast).
  split; [exact Hflag|exact (Hlast H2)].
Defined.

Lemma rebuild_forgets_old_vertices_witness :
  depthImg (set_pointcloud (mkPointCloud []) Sample.drained) = depthImg Sample.drained
  /\ _depthIntrinsics (set_pointcloud (mkPointCloud []) Sample.drained)
     = _depthIntrinsics Sample.drained
  /\ 0 <= getHeight (depthImg Sample.drained)
  /\ 0 <= getWidth (depthImg Sample.drained)
  /\ getHeight (depthImg Sample.drained) * getWidth (depthImg Sample.drained)
     <= Int.max_int
  /\ pointcloud (updatePointCloud (set_pointcloud (mkPointCloud []) Sample.drained))
     = pointcloud (updatePointCloud Sample.drained).
Proof.
  assert (H1 : depthImg (set_pointcloud (mkPointCloud []) Sample.drained)
               = depthImg Sample.drained) by (vm_compute; reflexivity).
  assert (H2 : _depthIntrinsics (set_pointcloud (mkPointCloud []) Sample.drained)
               = _depthIntrinsics Sample.drained) by (vm_compute; reflexivity).
  assert (H3 : 0 <= getHeight (depthImg Sample.drained)) by (change (0 <= 2); lia).
  assert (H4 : 0 <= getWidth (depthImg Sample.drained)) by (change (0 <= 2); lia).
  assert (H5 : getHeight (depthImg Sample.drained) * getWidth (depthImg Sample.drained)
               <= Int.max_int) by (change (2 * 2 <= 2147483647); lia).
  split; [exact H1|]. split; [exact H2|]. split; [exact H3|]. split; [exact H4|].
  split; [exact H5|].
  exact (proj1 (rebuild_forgets_old_vertices Sample.drained
                  (set_pointcloud (mkPointCloud []) Sample.drained) H1 H2 H3 H4 H5)).
Defined.

Lemma rebuild_idempotent_witness :
  0 <= getHeight (depthImg Sample.resized)
  /\ 0 <= getWidth (depthImg Sample.resized)
  /\ getHeight (depthImg Sample.resized) * getWidth (depthImg Sample.resized)
     <= Int.max_int
  /\ updatePointCloud (updatePointCloud Sample.resized) = updatePointCloud Sample.resized.
Proof.
  assert (H3 : 0 <= getHeight (depthImg Sample.resized)) by (change (0 <= 1); lia).
  assert (H4 : 0 <= getWidth (depthImg Sample.resized)) by (change (0 <= 3); lia).
  assert (H5 : getHeight (depthImg Sample.resized) * getWidth (depthImg Sample.resized)
               <= Int.max_int) by (change (1 * 3 <= 2147483647); lia).
  split; [exact H3|]. split; [exact H4|]. split; [exact H5|].
  exact (rebuild_idempotent Sample.resized H3 H4 H5).
Defined.

Lemma cloud_depths_are_the_image_witness :
  0 <= getHeight (depthImg Sample.drained)
  /\ 0 <= getWidth (depthImg Sample.drained)
  /\ getHeight (depthImg Sample.drained) * getWidth (depthImg Sample.drained)
     <= Int.max_int
  /\ length (pix_data (getPixels (depthImg Sample.drained)))
     = Z.to_nat (getHeight (depthImg Sample.drained) * getWidth (depthImg Sample.drained))
  /\ v3z <$> vertices (pointcloud (updatePointCloud Sample.drained))
     = depthInMillimeters Sample.depthA.
Proof.
  assert (H3 : 0 <= getHeight (depthImg Sample.drained)) by (change (0 <= 2); lia).
  assert (H4 : 0 <= getWidth (depthImg Sample.drained)) by (change (0 <= 2); lia).
  assert (H5 : getHeight (depthImg Sample.drained) * getWidth (depthImg Sample.drained)
               <= Int.max_int) by (change (2 * 2 <= 2147483647); lia).
  assert (H6 : length (pix_data (getPixels (depthImg Sample.drained)))
               = Z.to_nat (getHeight (depthImg Sample.drained)
                           * getWidth (depthImg Sample.drained)))
    by (vm_compute; reflexivity).
  split; [exact H3|]. split; [exact H4|]. split; [exact H5|]. split; [exact H6|].
  exact (cloud_depths_are_the_image Sample.drained H3 H4 H5 H6).
Defined.

Lemma nan_depth_gives_nan_vertex_witness :
  0 <= 0 < getHeight (depthImg (set_depthImg (depth_image_of Sample2.depthN) Sample.drained))
  /\ 0 <= 0 < getWidth (depthImg (set_depthImg (depth_image_of Sample2.depthN) Sample.drained))
  /\ vertices (pointcloud
       (updatePointCloud (set_depthImg (depth_image_of Sample2.depthN) Sample.drained)))
       !! 0%nat
     = Some (mkVec3 S754_nan S754_nan S754_nan).
Proof.
  assert (H1 : 0 <= 0 < getHeight (depthImg
                 (set_depthImg (depth_image_of Sample2.depthN) Sample.drained)))
    by (change (0 <= 0 < 1); lia).
  assert (H2 : 0 <= 0 < getWidth (depthImg
                 (set_depthImg (depth_image_of Sample2.depthN) Sample.drained)))
    by (change (0 <= 0 < 2); lia).
  split; [exact H1|]. split; [exact H2|].
  apply (nan_depth_gives_nan_vertex
           (set_depthImg (depth_image_of Sample2.depthN) Sample.drained) 0 0 H1 H2).
  - change (1 * 2 <= 2147483647). lia.
  - vm_compute. reflexivity.
Defined.

Lemma listDevices_serials_witness :
  count (mkEnumeration [Some Sample2.sensorA] 0) <= 0
  /\ fst (listDevices (mkEnumeration [Some Sample2.sensorA] 0) true) = [].
Proof.
  assert (H1 : count (mkEnumeration [Some Sample2.sensorA] 0) <= 0)
    by (change (0 <= 0); lia).
  split; [exact H1|].
  exact (proj1 (proj2 (proj2 (proj2
    (listDevices_serials (mkEnumeration [Some Sample2.sensorA] 0) true)))) H1).
Defined.

(** Three slots reported, the middle one null: two serial numbers. *)
Example listDevices_sample :
  listDevices Sample2.found true
  = (["A1"; "B2"]%string, Some (2%nat, [Sample2.sensorA; Sample2.sensorB])).
Proof. vm_compute. reflexivity. Qed.

(** Frame [depthA] then frame [depthB] on a fresh object, then [update]:
    the three vertices carry the depths 7, 8 and 9 of [depthB]; the first
    of them is (7*(0-0.5)/2, 7*(0-0.5)/4, 7) = (-1.75, -0.875, 7), computed
    with the intrinsics in store. *)
Example two_depth_frames_cloud :
  v3z <$> vertices (pointcloud
    (update (handleNewFrame (Sample.frame_of T_DepthFrame Sample.depthB)
               (handleNewFrame (Sample.frame_of T_DepthFrame Sample.depthA)
                  (Sample.fresh [])))))
  = depthInMillimeters Sample.depthB
  /\ vertices (pointcloud
       (update (handleNewFrame (Sample.frame_of T_DepthFrame Sample.depthB)
                  (handleNewFrame (Sample.frame_of T_DepthFrame Sample.depthA)
                     (Sample.fresh []))))) !! 0%nat
     = Some (mkVec3 (S754_finite true 14680064 (-23))
                    (S754_finite true 14680064 (-24))
                    (S754_finite false 14680064 (-21))).
Proof. vm_compute. split; reflexivity. Qed.
